(** * Wallet registry manager (createWallet_EVMSVM.py)

    A shallow embedding of [WalletManager]: its constructor, the JSON
    wallet file it loads and rewrites, the generation of new wallets,
    the balance query and the top-up operation [manage_wallets].

    Python objects are modelled as follows.
    - [int] is [Z]; [str] is [string]; [float] is the IEEE-754 binary64
      model [spec_float] of the standard library.
    - A wallet [dict] with its four fixed keys is the record [Wallet].
    - The file system is a finite map from file names to file states.
    - A call either returns a value or raises an exception: [outcome].
    - Methods thread a [World] (files, logical clock, standard output)
      through a state-and-exception monad [M].
    - The collaborators that are not part of the file (web3, solders,
      the Solana client, the key generators, the operating system's
      answer to a write) are the fields of an environment [Env]; every
      interaction with them advances the clock and is answered by the
      environment at that clock value. *)

From Stdlib Require Import ZArith List Bool Lia Sorting.Sorted.
From Stdlib Require Import Floats.SpecFloat.
From stdpp Require Import base strings gmap list.

Open Scope string_scope.
Open Scope Z_scope.
Open Scope list_scope.

(** ** Exceptions *)

(** The exception classes that occur in the file or can reach it. *)
Inductive exn_class :=
| Exception
| ValueError
| JSONDecodeError        (* json.JSONDecodeError, a ValueError *)
| UnicodeDecodeError     (* a ValueError *)
| OSError                (* IOError is an alias of OSError *)
| ConnectionError        (* the builtin, an OSError *)
| RequestsConnectionError (* requests.exceptions.ConnectionError, an OSError *)
| SolanaRpcException     (* solana.exceptions.SolanaRpcException *)
| PermissionError        (* an OSError *)
| Web3Exception
| AttributeError
| TypeError
| KeyError
| OverflowError.

Definition exn_class_eqb (c d : exn_class) : bool :=
  match c, d with
  | Exception, Exception | ValueError, ValueError
  | JSONDecodeError, JSONDecodeError
  | UnicodeDecodeError, UnicodeDecodeError
  | OSError, OSError | ConnectionError, ConnectionError
  | RequestsConnectionError, RequestsConnectionError
  | SolanaRpcException, SolanaRpcException
  | PermissionError, PermissionError
  | Web3Exception, Web3Exception | AttributeError, AttributeError
  | TypeError, TypeError | KeyError, KeyError
  | OverflowError, OverflowError => true
  | _, _ => false
  end.

(** Direct base class; [Exception] is the root of what is modelled. *)
Definition base_class (c : exn_class) : option exn_class :=
  match c with
  | Exception => None
  | JSONDecodeError | UnicodeDecodeError => Some ValueError
  | ConnectionError | PermissionError | RequestsConnectionError => Some OSError
  | _ => Some Exception
  end.

(** [issubclass c d]: the hierarchy has depth two below [Exception]. *)
Definition issubclass (c d : exn_class) : bool :=
  exn_class_eqb c d
  || match base_class c with
     | Some b =>
         exn_class_eqb b d
         || match base_class b with
            | Some r => exn_class_eqb r d
            | None => false
            end
     | None => false
     end.

(** The text of an exception.  The messages built by the file itself
    are kept apart by constructor (the source writes them in Chinese);
    [msg_lib] is a text produced by a library or the operating system. *)
Inductive message :=
| msg_unsupported_network (network : string)          (* __init__ *)
| msg_solana_unreachable                              (* __init__ *)
| msg_ethereum_unreachable                            (* __init__ *)
| msg_save_failed (file : string) (cause : message)   (* _save_wallets *)
| msg_negative_count                                  (* create_wallets *)
| msg_chain_not_supported                             (* create_wallets *)
| msg_network_mismatch (network chain : string)       (* create_wallets, manage_wallets *)
| msg_unsupported_chain_type                          (* get_balance *)
| msg_negative_request                                (* manage_wallets *)
| msg_no_attribute (attr : string)                    (* a missing attribute of self *)
| msg_lib (text : string).

Record exn := Exn { exn_cls : exn_class; exn_msg : message }.

(** An error raised inside a collaborator. *)
Record lib_error := LibError { lib_cls : exn_class; lib_text : string }.

Inductive lib_result (A : Type) :=
| LibOk (a : A)
| LibErr (e : lib_error).
Arguments LibOk {A} a.
Arguments LibErr {A} e.

Definition of_lib (e : lib_error) : exn := Exn (lib_cls e) (msg_lib (lib_text e)).

(** The result of a call. *)
Inductive outcome (A : Type) :=
| Ret (a : A)
| Raise (e : exn).
Arguments Ret {A} a.
Arguments Raise {A} e.

(** ** Data *)

Record Wallet := mkWallet {
  chain : string;
  address : string;
  private_key : string;
  created_at : Z
}.

(** What the wallet file holds.  A name absent from the file system is
    a missing file.  [Stored ws] is a well-formed JSON array of wallet
    records (the declared type [List[Dict]] of the loader); [Corrupt]
    is a file whose text is not JSON; [Unreadable e] is a file that
    exists but whose opening or reading raises [e]. *)
Inductive FileState :=
| Stored (ws : list Wallet)
| Corrupt
| Unreadable (e : lib_error).

(** Lines written by [print]. *)
Inductive output :=
| warn_corrupt (file : string)
| warn_balance (addr : string) (cause : message).

Record World := mkWorld {
  fs : gmap string FileState;
  clock : nat;
  stdout : list output
}.

(** ** Collaborators *)

(** A response of the Solana client: either an object with a [value]
    attribute, or one without it, for which [int(resp)] gives [as_int]. *)
Inductive SolResp :=
| RespValue (value : Z)
| RespPlain (as_int : lib_result Z).

(** The answer of the operating system to [open(file, 'w')] followed by
    [json.dump]: success; a failure of [open] (the file is untouched);
    or a failure after [open] truncated the file. *)
Inductive write_answer :=
| WriteOk
| WriteFailOpen (e : lib_error)
| WriteFailPartial (e : lib_error).

Record Env := mkEnv {
  (* Account.create(): the address and key.hex() of a fresh account *)
  account_create : nat -> string * string;
  (* Keypair(): str(pubkey()) and to_bytes().hex() of a fresh keypair *)
  keypair_new : nat -> string * string;
  (* Web3(Web3.HTTPProvider(endpoint)) and w3.is_connected(): the answer
     of the check, or the error that building or asking the client raises *)
  w3_is_connected : nat -> lib_result bool;
  (* SolanaClient(endpoint) and sol_client.is_connected(), likewise: the
     Solana client raises SolanaRpcException when the endpoint cannot be
     reached *)
  sol_is_connected : nat -> lib_result bool;
  (* w3.eth.get_block('latest')['timestamp'] *)
  w3_latest_timestamp : nat -> lib_result Z;
  (* sol_client.get_block_height() *)
  sol_get_block_height : nat -> lib_result SolResp;
  (* w3.eth.get_balance(address) *)
  w3_get_balance : nat -> string -> lib_result Z;
  (* float(w3.from_wei(balance, 'ether')) *)
  w3_from_wei_ether : Z -> lib_result spec_float;
  (* Pubkey.from_string(address) *)
  pubkey_from_string : string -> lib_result string;
  (* sol_client.get_balance(pubkey) *)
  sol_get_balance : nat -> string -> lib_result SolResp;
  (* writing the wallet file *)
  file_write : nat -> write_answer
}.

(** ** The monad *)

Definition M (A : Type) : Type := World -> outcome A * World.

Definition ret {A} (a : A) : M A := fun w => (Ret a, w).
Definition raise {A} (e : exn) : M A := fun w => (Raise e, w).

Definition bind {A B} (c : M A) (k : A -> M B) : M B :=
  fun w =>
    match c w with
    | (Ret a, w') => k a w'
    | (Raise e, w') => (Raise e, w')
    end.

Notation "'let!' x ':=' c 'in' k" := (bind c (fun x => k))
  (at level 10, x name, c at level 100, k at level 200).
Notation "'do!' c 'in' k" := (bind c (fun _ => k))
  (at level 10, c at level 100, k at level 200).

(** [try: body except classes as e: handler e]. *)
Definition try_except {A} (body : M A) (classes : list exn_class)
    (handler : exn -> M A) : M A :=
  fun w =>
    match body w with
    | (Ret a, w') => (Ret a, w')
    | (Raise e, w') =>
        if existsb (issubclass (exn_cls e)) classes
        then handler e w'
        else (Raise e, w')
    end.

(** One interaction with the outside: read the clock and advance it. *)
Definition tick : M nat :=
  fun w => (Ret (clock w), mkWorld (fs w) (S (clock w)) (stdout w)).

Definition print (o : output) : M unit :=
  fun w => (Ret tt, mkWorld (fs w) (clock w) (stdout w ++ [o])).

Definition lift_lib {A} (r : lib_result A) : M A :=
  match r with
  | LibOk a => ret a
  | LibErr e => raise (of_lib e)
  end.

(** [self.attr] for an attribute that [__init__] may not have set. *)
Definition getattr {A} (name : string) (o : option A) : M A :=
  match o with
  | Some a => ret a
  | None => raise (Exn AttributeError (msg_no_attribute name))
  end.

(** ** WalletManager *)

Definition WALLET_FILES : gmap string string :=
  <["eth" := "eth_wallets.json"]> (<["sol" := "sol_wallets.json"]> ∅).

Definition NETWORKS : gmap string string :=
  <["eth" := "ETH_RPC_API"]> (<["sol" := "SOL_RPC_API"]> ∅).

(** An instance.  [w3] and [sol_client] hold the endpoint of the client
    when [__init__] created it, and are absent otherwise. *)
Record Manager := mkManager {
  network : string;
  wallet_file : string;
  w3 : option string;
  sol_client : option string
}.

Section WalletManager.

Variable E : Env.

(** [__init__] *)
Definition init (net : string) : M Manager :=
  match NETWORKS !! net with
  | None => raise (Exn ValueError (msg_unsupported_network net))
  | Some endpoint =>
      match WALLET_FILES !! net with
      | None => raise (Exn KeyError (msg_lib net))
      | Some file =>
          if String.eqb net "sol" then
            let! t := tick in
            let! connected := lift_lib (sol_is_connected E t) in
            if connected
            then ret (mkManager net file None (Some endpoint))
            else raise (Exn ConnectionError msg_solana_unreachable)
          else
            let! t := tick in
            let! connected := lift_lib (w3_is_connected E t) in
            if connected
            then ret (mkManager net file (Some endpoint) None)
            else raise (Exn ConnectionError msg_ethereum_unreachable)
      end
  end.

Variable self : Manager.

(** The body of the [try] in [_load_wallets]. *)
Definition read_wallet_file : M (list Wallet) :=
  fun w =>
    match fs w !! wallet_file self with
    | None => (Ret [], w)                       (* os.path.exists is False *)
    | Some (Stored ws) => (Ret ws, w)
    | Some Corrupt => (Raise (Exn JSONDecodeError (msg_lib "")), w)
    | Some (Unreadable e) => (Raise (of_lib e), w)
    end.

Definition _load_wallets : M (list Wallet) :=
  try_except read_wallet_file [JSONDecodeError]
    (fun _ => do! print (warn_corrupt (wallet_file self)) in ret []).

(** The body of the [try] in [_save_wallets]. *)
Definition write_wallet_file (wallets : list Wallet) : M unit :=
  let! t := tick in
  fun w =>
    match file_write E t with
    | WriteOk =>
        (Ret tt,
         mkWorld (<[wallet_file self := Stored wallets]> (fs w)) (clock w) (stdout w))
    | WriteFailOpen e => (Raise (of_lib e), w)
    | WriteFailPartial e =>
        (Raise (of_lib e),
         mkWorld (<[wallet_file self := Corrupt]> (fs w)) (clock w) (stdout w))
    end.

Definition _save_wallets (wallets : list Wallet) : M unit :=
  try_except (write_wallet_file wallets) [OSError]
    (fun e => raise (Exn OSError (msg_save_failed (wallet_file self) (exn_msg e)))).

(** One turn of the [for] loop of [create_wallets]: the new wallet. *)
Definition new_wallet (chain : string) : M Wallet :=
  if String.eqb chain "eth" then
    let! t := tick in
    let account := account_create E t in
    let! _ := getattr "w3" (w3 self) in
    let! t' := tick in
    let! timestamp := lift_lib (w3_latest_timestamp E t') in
    ret (mkWallet "eth" (fst account) (snd account) timestamp)
  else
    let! t := tick in
    let keypair := keypair_new E t in
    let! _ := getattr "sol_client" (sol_client self) in
    let! t' := tick in
    let! block_height_resp := lift_lib (sol_get_block_height E t') in
    let! block_height :=
      match block_height_resp with
      | RespValue v => ret v                   (* hasattr(resp, 'value') *)
      | RespPlain i => lift_lib i              (* int(resp) *)
      end in
    ret (mkWallet "sol" (fst keypair) (snd keypair) block_height).

(** [for _ in range(n): new_wallets.append(wallet)] *)
Fixpoint create_loop (n : nat) (chain : string) (new_wallets : list Wallet)
    : M (list Wallet) :=
  match n with
  | O => ret new_wallets
  | S n' =>
      let! wallet := new_wallet chain in
      create_loop n' chain (new_wallets ++ [wallet])
  end.

(** [x in ['eth', 'sol']] *)
Definition in_list (x : string) (l : list string) : bool :=
  existsb (String.eqb x) l.

Definition create_wallets (num_wallets : Z) (chain : string) : M (list Wallet) :=
  if num_wallets <? 0 then raise (Exn ValueError msg_negative_count)
  else if negb (in_list chain ["eth"; "sol"])
  then raise (Exn ValueError msg_chain_not_supported)
  else if negb (String.eqb chain (network self))
  then raise (Exn ValueError (msg_network_mismatch (network self) chain))
  else
    let! wallets := _load_wallets in
    let! new_wallets := create_loop (Z.to_nat num_wallets) chain [] in
    do! _save_wallets (wallets ++ new_wallets) in
    ret new_wallets.

(** [float(i)] for an [int]: the nearest binary64 number, ties to even;
    an [int] too large for a float raises [OverflowError]. *)
Definition float_of_int (i : Z) : M spec_float :=
  match binary_normalize 53 1024 i 0 false with
  | S754_infinity _ => raise (Exn OverflowError (msg_lib "int too large to convert to float"))
  | f => ret f
  end.

(** The literals [0.0] and [1e9]. *)
Definition float_zero : spec_float := S754_zero false.
Definition float_1e9 : spec_float := binary_normalize 53 1024 1000000000 0 false.

(** The body of the [try] in [get_balance]. *)
Definition query_balance (address chain : string) : M spec_float :=
  if String.eqb chain "eth" then
    let! _ := getattr "w3" (w3 self) in
    let! t := tick in
    let! balance_wei := lift_lib (w3_get_balance E t address) in
    lift_lib (w3_from_wei_ether E balance_wei)
  else if String.eqb chain "sol" then
    let! pubkey := lift_lib (pubkey_from_string E address) in
    let! _ := getattr "sol_client" (sol_client self) in
    let! t := tick in
    let! response := lift_lib (sol_get_balance E t pubkey) in
    let! value :=
      match response with
      | RespValue v => ret v
      | RespPlain _ => raise (Exn AttributeError (msg_no_attribute "value"))
      end in
    let! f := float_of_int value in
    ret (SFdiv 53 1024 f float_1e9)
  else raise (Exn ValueError msg_unsupported_chain_type).

Definition get_balance (address chain : string) : M spec_float :=
  try_except (query_balance address chain) [Web3Exception; ValueError]
    (fun e => do! print (warn_balance address (exn_msg e)) in ret float_zero).

(** [wallets[:k]] for [k >= 0]. *)
Definition slice_to (k : Z) (wallets : list Wallet) : list Wallet :=
  firstn (Z.to_nat k) wallets.

Definition manage_wallets (requested_num : Z) (chain : string) : M (list Wallet) :=
  if requested_num <? 0 then raise (Exn ValueError msg_negative_request)
  else if negb (String.eqb chain (network self))
  then raise (Exn ValueError (msg_network_mismatch (network self) chain))
  else
    let! wallets := _load_wallets in
    let current_num := Z.of_nat (length wallets) in
    if requested_num <=? current_num then ret (slice_to requested_num wallets)
    else
      let! new_wallets := create_wallets (requested_num - current_num) chain in
      ret (wallets ++ new_wallets).

End WalletManager.

(** ** The command-line driver *)

(** [main] reads two lines, prints to the same standard output as the
    manager, and handles the exceptions of everything it calls.  Its
    programs run on a [Console]: the world of the manager together with
    the screen, which holds every line in the order it was printed, the
    warnings of the manager included. *)

(** An exception inside [main]: the [ValueError] that [main] raises
    itself for a chain it does not accept, or one that came out of a
    call. *)
Inductive main_exn :=
| bad_chain_input
| propagated (e : exn).

Definition main_exn_cls (e : main_exn) : exn_class :=
  match e with
  | bad_chain_input => ValueError
  | propagated e => exn_cls e
  end.

(** The lines of the screen.  A line records what is printed, not its
    rendering: the balance is the float that [main] formats to six
    decimals. *)
Inductive line :=
| prompt_chain                                       (* input(...) *)
| prompt_count (chain_upper : string)                (* input(...) *)
| say_summary (count : nat) (chain_upper : string)
| say_wallet (idx : Z)
| say_address (addr : string)
| say_balance (balance : spec_float) (unit_label : string)
| say_input_error (e : main_exn)
| say_network_error (e : main_exn)
| say_unknown_error (e : main_exn)
| say_warning (o : output).                          (* printed by the manager *)

Record Console := mkConsole {
  world : World;
  screen : list line
}.

Inductive main_outcome (A : Type) :=
| Done (a : A)
| Failed (e : main_exn).
Arguments Done {A} a.
Arguments Failed {A} e.

Definition Prog (A : Type) : Type := Console -> main_outcome A * Console.

Definition pret {A} (a : A) : Prog A := fun s => (Done a, s).
Definition pfail {A} (e : main_exn) : Prog A := fun s => (Failed e, s).

Definition pbind {A B} (c : Prog A) (k : A -> Prog B) : Prog B :=
  fun s =>
    match c s with
    | (Done a, s') => k a s'
    | (Failed e, s') => (Failed e, s')
    end.

Notation "'let*' x ':=' c 'in' k" := (pbind c (fun x => k))
  (at level 10, x name, c at level 100, k at level 200).
Notation "'do*' c 'in' k" := (pbind c (fun _ => k))
  (at level 10, c at level 100, k at level 200).

Definition say (l : line) : Prog unit :=
  fun s => (Done tt, mkConsole (world s) (screen s ++ [l])).

(** A call into the manager: it runs on the world, and the lines it
    printed appear on the screen. *)
Definition call {A} (c : M A) : Prog A :=
  fun s =>
    let (r, w') := c (world s) in
    let printed := skipn (length (stdout (world s))) (stdout w') in
    (match r with Ret a => Done a | Raise e => Failed (propagated e) end,
     mkConsole w' (screen s ++ map say_warning printed)).

(** [str.lower] and [str.upper] on the ASCII letters; other bytes are
    left as they are. *)
Definition lower_char (c : Ascii.ascii) : Ascii.ascii :=
  let n := Ascii.nat_of_ascii c in
  if (Nat.leb 65 n && Nat.leb n 90)%bool then Ascii.ascii_of_nat (n + 32) else c.

Definition upper_char (c : Ascii.ascii) : Ascii.ascii :=
  let n := Ascii.nat_of_ascii c in
  if (Nat.leb 97 n && Nat.leb n 122)%bool then Ascii.ascii_of_nat (n - 32) else c.

Fixpoint map_string (f : Ascii.ascii -> Ascii.ascii) (s : string) : string :=
  match s with
  | EmptyString => EmptyString
  | String c s' => String (f c) (map_string f s')
  end.

Definition lower : string -> string := map_string lower_char.
Definition upper : string -> string := map_string upper_char.

Section Driver.

Variable E : Env.

(** [int(text)], the conversion of the second input line. *)
Variable int_of_str : string -> lib_result Z.

(** One turn of the report loop of [main]. *)
Definition report_wallet (wallet_mgr : Manager) (chain : string)
    (idx : Z) (wallet : Wallet) : Prog unit :=
  let* balance := call (get_balance E wallet_mgr (address wallet) chain) in
  let unit_label := if String.eqb chain "eth" then "ETH" else "SOL" in
  do* say (say_wallet idx) in
  do* say (say_address (address wallet)) in
  say (say_balance balance unit_label).

(** [for idx, wallet in enumerate(wallets, idx): ...] *)
Fixpoint report_wallets (wallet_mgr : Manager) (chain : string)
    (idx : Z) (wallets : list Wallet) : Prog unit :=
  match wallets with
  | [] => pret tt
  | wallet :: rest =>
      do* report_wallet wallet_mgr chain idx wallet in
      report_wallets wallet_mgr chain (idx + 1) rest
  end.

(** The body of the [try] in [main], on the two input lines. *)
Definition main_try (chain_input count_input : string) : Prog unit :=
  do* say prompt_chain in
  let chain := lower chain_input in
  if negb (in_list chain ["eth"; "sol"]) then pfail bad_chain_input
  else
    let* wallet_mgr := call (init E chain) in
    do* say (prompt_count (upper chain)) in
    let* requested_num := call (lift_lib (int_of_str count_input)) in
    let* wallets := call (manage_wallets E wallet_mgr requested_num chain) in
    do* say (say_summary (length wallets) (upper chain)) in
    report_wallets wallet_mgr chain 1 wallets.

(** [main]: the three [except] clauses, in their order. *)
Definition main (chain_input count_input : string) : Prog unit :=
  fun s =>
    match main_try chain_input count_input s with
    | (Done a, s') => (Done a, s')
    | (Failed e, s') =>
        if issubclass (main_exn_cls e) ValueError then say (say_input_error e) s'
        else if issubclass (main_exn_cls e) ConnectionError then say (say_network_error e) s'
        else if issubclass (main_exn_cls e) Exception then say (say_unknown_error e) s'
        else (Failed e, s')
    end.

End Driver.

(** ** Vocabulary of the statements *)

(** The records the file holds: what a load returns when it returns. *)
Definition stored (self : Manager) (w : World) : list Wallet :=
  match fs w !! wallet_file self with
  | Some (Stored ws) => ws
  | _ => []
  end.

(** The chain written into a new wallet. *)
Definition chain_tag (ch : string) : string :=
  if String.eqb ch "eth" then "eth" else "sol".

(** The messages that an exception raised after the guards of
    [create_wallets] can carry: a collaborator's text, a missing
    attribute, or the failed save; never the message of a guard. *)
Definition foreign_message (m : message) : Prop :=
  match m with
  | msg_lib _ | msg_no_attribute _ | msg_save_failed _ _ => True
  | _ => False
  end.

(** The manager was built by the constructor. *)
Definition constructed (self : Manager) : Prop :=
  exists E net w0 w1, init E net w0 = (Ret self, w1).

(** A block-height answer from which [new_wallet] gets an [int]. *)
Definition block_height_ok (r : lib_result SolResp) : Prop :=
  match r with
  | LibOk (RespValue _) | LibOk (RespPlain (LibOk _)) => True
  | _ => False
  end.

(** The collaborators used by generation always answer, and writing
    the file always succeeds. *)
Record reliable (E : Env) : Prop := {
  timestamp_answers : forall t, exists z, w3_latest_timestamp E t = LibOk z;
  block_height_answers : forall t, block_height_ok (sol_get_block_height E t);
  write_succeeds : forall t, file_write E t = WriteOk
}.

(** The wallet file can be loaded. *)
Definition loads (self : Manager) (w : World) : Prop :=
  exists old, fst (_load_wallets self w) = Ret old.

(** A precondition of [create_wallets] is violated. *)
Definition precondition_violated (self : Manager) (n : Z) (ch : string) : Prop :=
  n < 0 \/ (ch <> "eth" /\ ch <> "sol") \/ ch <> network self.

(** The [ValueError]s raised by the three guards of [create_wallets]. *)
Definition validation_error (self : Manager) (ch : string) (e : exn) : Prop :=
  exn_cls e = ValueError /\
  (exn_msg e = msg_negative_count \/
   exn_msg e = msg_chain_not_supported \/
   exn_msg e = msg_network_mismatch (network self) ch).

(** The classes named by the [except] clause of [get_balance]. *)
Definition caught_by_get_balance (e : exn) : bool :=
  issubclass (exn_cls e) Web3Exception || issubclass (exn_cls e) ValueError.

(** A caller that makes the calls [manage_wallets k chain] for the
    requests [ks] in turn and collects what they return. *)
Fixpoint manage_sequence (E : Env) (self : Manager) (ch : string) (ks : list Z)
    : M (list (list Wallet)) :=
  match ks with
  | [] => ret []
  | k :: ks' =>
      let! r := manage_wallets E self k ch in
      let! rs := manage_sequence E self ch ks' in
      ret (r :: rs)
  end.

(** The key generator of a chain: [Account.create] for ['eth'],
    [Keypair] otherwise. *)
Definition keygen (E : Env) (ch : string) : nat -> string * string :=
  if String.eqb ch "eth" then account_create E else keypair_new E.

(** The answer at clock [t] from which a new wallet takes [created_at]:
    the timestamp of the latest block for ['eth'], the block height
    otherwise. *)
Definition stamp_at (E : Env) (ch : string) (t : nat) (stamp : Z) : Prop :=
  if String.eqb ch "eth" then w3_latest_timestamp E t = LibOk stamp
  else sol_get_block_height E t = LibOk (RespValue stamp) \/
       sol_get_block_height E t = LibOk (RespPlain (LibOk stamp)).

(** [x] is the wallet generated at clock [t]: its address and key are
    those of the generator call at [t], and its [created_at] is the
    answer of the endpoint to the query made right after. *)
Definition generated_at (E : Env) (ch : string) (t : nat) (x : Wallet) : Prop :=
  chain x = chain_tag ch /\
  address x = fst (keygen E ch t) /\
  private_key x = snd (keygen E ch t) /\
  stamp_at E ch (S t) (created_at x).

(** The generator of a chain never gives the same address twice. *)
Definition fresh_addresses (E : Env) (ch : string) : Prop :=
  forall t t', fst (keygen E ch t) = fst (keygen E ch t') -> t = t'.

(** The connection check of a supported network, and the
    [ConnectionError] that [__init__] raises itself when the check
    answers [False]. *)
Definition connection_check (E : Env) (net : string) : nat -> lib_result bool :=
  if String.eqb net "eth" then w3_is_connected E else sol_is_connected E.

Definition unreachable_error (net : string) : exn :=
  if String.eqb net "eth" then Exn ConnectionError msg_ethereum_unreachable
  else Exn ConnectionError msg_solana_unreachable.

(** ** Concrete environments and worlds, used by the examples *)

Module Examples.

(** Fresh keys: one letter per clock value. *)
Definition key_of (prefix : string) (t : nat) : string * string :=
  (String.append prefix (String (Ascii.ascii_of_nat (65 + t)) ""),
   String.append "k" (String (Ascii.ascii_of_nat (65 + t)) "")).

(** Every collaborator answers. *)
Definition env_ok : Env := {|
  account_create := key_of "0x";
  keypair_new := key_of "So";
  w3_is_connected := fun _ => LibOk true;
  sol_is_connected := fun _ => LibOk true;
  w3_latest_timestamp := fun t => LibOk (1700000000 + Z.of_nat t);
  sol_get_block_height := fun t => LibOk (RespValue (250000000 + Z.of_nat t));
  w3_get_balance := fun _ _ => LibOk 2000000000000000000;
  w3_from_wei_ether := fun wei => LibOk (SFdiv 53 1024
                         (binary_normalize 53 1024 wei 0 false)
                         (binary_normalize 53 1024 1000000000000000000 0 false));
  pubkey_from_string := fun a => if String.eqb a "" then LibErr (LibError ValueError "invalid pubkey")
                                 else LibOk a;
  sol_get_balance := fun _ _ => LibOk (RespValue 1500000000);
  file_write := fun _ => WriteOk
|}.

(** As [env_ok], but the disk is full: every write fails at [open]. *)
Definition env_disk_full : Env := {|
  account_create := account_create env_ok;
  keypair_new := keypair_new env_ok;
  w3_is_connected := w3_is_connected env_ok;
  sol_is_connected := sol_is_connected env_ok;
  w3_latest_timestamp := w3_latest_timestamp env_ok;
  sol_get_block_height := sol_get_block_height env_ok;
  w3_get_balance := w3_get_balance env_ok;
  w3_from_wei_ether := w3_from_wei_ether env_ok;
  pubkey_from_string := pubkey_from_string env_ok;
  sol_get_balance := sol_get_balance env_ok;
  file_write := fun _ => WriteFailOpen (LibError OSError "No space left on device")
|}.

(** An Ethereum address that web3 accepts whatever the checksum rule:
    [0x] and forty decimal digits. *)
Fixpoint all_digits (s : string) : bool :=
  match s with
  | EmptyString => true
  | String c s' =>
      let n := Ascii.nat_of_ascii c in
      (Nat.leb 48 n && Nat.leb n 57 && all_digits s')%bool
  end.

Definition plain_address (a : string) : bool :=
  (String.prefix "0x" a && Nat.eqb (String.length a) 42
   && all_digits (String.substring 2 40 a))%bool.

Definition zero_address : string := "0x0000000000000000000000000000000000000000".

(** The public key of thirty-two zero bytes, in base 58. *)
Definition system_address : string := "11111111111111111111111111111111".

(** As [env_ok], but the endpoint is unreachable when a balance is
    asked: the request for a plain address fails in the transport, with
    the [ConnectionError] of requests; any other text is answered as web3
    answers an address it does not accept, with [InvalidAddress], a
    [Web3Exception], before any request. *)
Definition env_offline : Env := {|
  account_create := account_create env_ok;
  keypair_new := keypair_new env_ok;
  w3_is_connected := w3_is_connected env_ok;
  sol_is_connected := sol_is_connected env_ok;
  w3_latest_timestamp := w3_latest_timestamp env_ok;
  sol_get_block_height := sol_get_block_height env_ok;
  w3_get_balance := fun _ a =>
    if plain_address a
    then LibErr (LibError RequestsConnectionError "connection refused")
    else LibErr (LibError Web3Exception "InvalidAddress");
  w3_from_wei_ether := w3_from_wei_ether env_ok;
  pubkey_from_string := pubkey_from_string env_ok;
  sol_get_balance := sol_get_balance env_ok;
  file_write := file_write env_ok
|}.

(** As [env_ok], but every write is interrupted after [open] has
    truncated the file. *)
Definition env_interrupted : Env := {|
  account_create := account_create env_ok;
  keypair_new := keypair_new env_ok;
  w3_is_connected := w3_is_connected env_ok;
  sol_is_connected := sol_is_connected env_ok;
  w3_latest_timestamp := w3_latest_timestamp env_ok;
  sol_get_block_height := sol_get_block_height env_ok;
  w3_get_balance := w3_get_balance env_ok;
  w3_from_wei_ether := w3_from_wei_ether env_ok;
  pubkey_from_string := pubkey_from_string env_ok;
  sol_get_balance := sol_get_balance env_ok;
  file_write := fun _ => WriteFailPartial (LibError OSError "No space left on device")
|}.

(** As [env_ok], but the endpoint answers the block query with an error
    that web3 raises as a [ValueError]. *)
Definition env_rpc_error : Env := {|
  account_create := account_create env_ok;
  keypair_new := keypair_new env_ok;
  w3_is_connected := w3_is_connected env_ok;
  sol_is_connected := sol_is_connected env_ok;
  w3_latest_timestamp := fun _ => LibErr (LibError ValueError "rpc error");
  sol_get_block_height := sol_get_block_height env_ok;
  w3_get_balance := w3_get_balance env_ok;
  w3_from_wei_ether := w3_from_wei_ether env_ok;
  pubkey_from_string := pubkey_from_string env_ok;
  sol_get_balance := sol_get_balance env_ok;
  file_write := file_write env_ok
|}.

(** As [env_ok], but no endpoint can be reached: web3 answers the
    check with [False], the Solana client raises. *)
Definition env_unreachable : Env := {|
  account_create := account_create env_ok;
  keypair_new := keypair_new env_ok;
  w3_is_connected := fun _ => LibOk false;
  sol_is_connected := fun _ =>
    LibErr (LibError SolanaRpcException "SolanaRpcException: connection refused");
  w3_latest_timestamp := w3_latest_timestamp env_ok;
  sol_get_block_height := sol_get_block_height env_ok;
  w3_get_balance := w3_get_balance env_ok;
  w3_from_wei_ether := w3_from_wei_ether env_ok;
  pubkey_from_string := pubkey_from_string env_ok;
  sol_get_balance := sol_get_balance env_ok;
  file_write := file_write env_ok
|}.

(** As [env_ok], but the Solana account holds nothing. *)
Definition env_empty_account : Env := {|
  account_create := account_create env_ok;
  keypair_new := keypair_new env_ok;
  w3_is_connected := w3_is_connected env_ok;
  sol_is_connected := sol_is_connected env_ok;
  w3_latest_timestamp := w3_latest_timestamp env_ok;
  sol_get_block_height := sol_get_block_height env_ok;
  w3_get_balance := w3_get_balance env_ok;
  w3_from_wei_ether := w3_from_wei_ether env_ok;
  pubkey_from_string := pubkey_from_string env_ok;
  sol_get_balance := fun _ _ => LibOk (RespValue 0);
  file_write := file_write env_ok
|}.

(** As [env_ok], but the wallet file may not be written. *)
Definition env_read_only : Env := {|
  account_create := account_create env_ok;
  keypair_new := keypair_new env_ok;
  w3_is_connected := w3_is_connected env_ok;
  sol_is_connected := sol_is_connected env_ok;
  w3_latest_timestamp := w3_latest_timestamp env_ok;
  sol_get_block_height := sol_get_block_height env_ok;
  w3_get_balance := w3_get_balance env_ok;
  w3_from_wei_ether := w3_from_wei_ether env_ok;
  pubkey_from_string := pubkey_from_string env_ok;
  sol_get_balance := sol_get_balance env_ok;
  file_write := fun _ => WriteFailOpen (LibError PermissionError "Permission denied")
|}.

(** A generator that never repeats: the address of call [t] is [t]
    strokes. *)
Fixpoint tally (t : nat) : string :=
  match t with
  | O => ""
  | S t' => String (Ascii.ascii_of_nat 73) (tally t')
  end.

Definition env_tally : Env := {|
  account_create := fun t => (tally t, "key");
  keypair_new := fun t => (tally t, "key");
  w3_is_connected := w3_is_connected env_ok;
  sol_is_connected := sol_is_connected env_ok;
  w3_latest_timestamp := w3_latest_timestamp env_ok;
  sol_get_block_height := sol_get_block_height env_ok;
  w3_get_balance := w3_get_balance env_ok;
  w3_from_wei_ether := w3_from_wei_ether env_ok;
  pubkey_from_string := pubkey_from_string env_ok;
  sol_get_balance := sol_get_balance env_ok;
  file_write := file_write env_ok
|}.

Definition tally_batch : list Wallet :=
  [mkWallet "eth" "" "key" 1700000001; mkWallet "eth" "II" "key" 1700000003].

(** A conversion of the count that knows three texts. *)
Definition int_of_sample (text : string) : lib_result Z :=
  if String.eqb text "3" then LibOk 3
  else if String.eqb text "1" then LibOk 1
  else if String.eqb text "-1" then LibOk (-1)
  else LibErr (LibError ValueError "invalid literal for int() with base 10").

(** A file that cannot be opened. *)
Definition locked_world : World :=
  mkWorld (<["eth_wallets.json" :=
               Unreadable (LibError PermissionError "Permission denied")]> ∅) 0 [].

Definition eth_manager : Manager :=
  mkManager "eth" "eth_wallets.json" (Some "ETH_RPC_API") None.
Definition sol_manager : Manager :=
  mkManager "sol" "sol_wallets.json" None (Some "SOL_RPC_API").

Definition empty_world : World := mkWorld ∅ 0 [].
Definition empty_console : Console := mkConsole empty_world [].

Definition sol_a : Wallet := mkWallet "sol" "SoA" "kA" 250000001.
Definition sol_b : Wallet := mkWallet "sol" "SoB" "kB" 250000003.

(** Two stored Solana wallets. *)
Definition two_sol_world : World :=
  mkWorld (<["sol_wallets.json" := Stored [sol_a; sol_b]]> ∅) 7 [].

(** The world after a third wallet was generated and saved from there. *)
Definition sol_h : Wallet := mkWallet "sol" "SoH" "kH" 250000008.
Definition three_sol_world : World :=
  mkWorld (<["sol_wallets.json" := Stored [sol_a; sol_b; sol_h]]> ∅) 10 [].

Definition corrupt_world : World :=
  mkWorld (<["eth_wallets.json" := Corrupt]> ∅) 0 [].

End Examples.

(** * Properties *)

Ltac run_monad :=
  unfold bind, tick, getattr, lift_lib, ret, raise, print; simpl.

(** ** Generic facts about the monad *)

Lemma bind_ret_inv {A B} (c : M A) (k : A -> M B) w b w' :
  bind c k w = (Ret b, w') ->
  exists a w1, c w = (Ret a, w1) /\ k a w1 = (Ret b, w').
Proof.
  unfold bind. destruct (c w) as [[a|e] w1]; intros H.
  - exists a, w1. split; [reflexivity | exact H].
  - discriminate H.
Qed.

Lemma bind_raise_inv {A B} (c : M A) (k : A -> M B) w e w' :
  bind c k w = (Raise e, w') ->
  c w = (Raise e, w') \/ exists a w1, c w = (Ret a, w1) /\ k a w1 = (Raise e, w').
Proof.
  unfold bind. destruct (c w) as [[a|e0] w1]; intros H.
  - right. exists a, w1. split; [reflexivity | exact H].
  - left. injection H as -> ->. reflexivity.
Qed.

Lemma bind_of_ret {A B} (c : M A) (k : A -> M B) w a w1 :
  c w = (Ret a, w1) -> bind c k w = k a w1.
Proof. intros H. unfold bind. rewrite H. reflexivity. Qed.

Lemma bind_of_raise {A B} (c : M A) (k : A -> M B) w e w1 :
  c w = (Raise e, w1) -> bind c k w = (Raise e, w1).
Proof. intros H. unfold bind. rewrite H. reflexivity. Qed.

(** ** The class hierarchy *)

Lemma issubclass_refl c : issubclass c c = true.
Proof. destruct c; reflexivity. Qed.

Lemma issubclass_Exception c : issubclass c Exception = true.
Proof. destruct c; reflexivity. Qed.

Lemma issubclass_trans c d e :
  issubclass c d = true -> issubclass d e = true -> issubclass c e = true.
Proof. destruct c, d, e; cbv; intros; congruence. Qed.

(** ** Loading *)

(** A load neither writes a file nor talks to a collaborator. *)
Lemma load_frame self w r w' :
  _load_wallets self w = (r, w') -> fs w' = fs w /\ clock w' = clock w.
Proof.
  unfold _load_wallets, try_except, read_wallet_file.
  destruct (fs w !! wallet_file self) as [[ws| |e]|]; simpl.
  - intros [= _ <-]. auto.
  - intros [= _ <-]. auto.
  - destruct (issubclass (lib_cls e) JSONDecodeError || false); simpl.
    + intros [= _ <-]. auto.
    + intros [= _ <-]. auto.
  - intros [= _ <-]. auto.
Qed.

Lemma load_ret self w ws w' :
  _load_wallets self w = (Ret ws, w') -> ws = stored self w.
Proof.
  unfold _load_wallets, try_except, read_wallet_file, stored.
  destruct (fs w !! wallet_file self) as [[ws0| |e]|]; simpl.
  - intros [= <- _]. reflexivity.
  - intros [= <- _]. reflexivity.
  - destruct (issubclass (lib_cls e) JSONDecodeError || false); simpl.
    + intros [= <- _]. reflexivity.
    + discriminate.
  - intros [= <- _]. reflexivity.
Qed.

(** Whether a load returns depends on the files only. *)
Lemma load_same_fs self w1 w2 :
  fs w2 = fs w1 -> fst (_load_wallets self w2) = fst (_load_wallets self w1).
Proof.
  intros Hfs. unfold _load_wallets, try_except, read_wallet_file.
  rewrite Hfs.
  destruct (fs w1 !! wallet_file self) as [[ws0| |e]|]; simpl; try reflexivity.
  destruct (issubclass (lib_cls e) JSONDecodeError || false); reflexivity.
Qed.

Lemma load_after_store self w ws :
  fs w !! wallet_file self = Some (Stored ws) ->
  _load_wallets self w = (Ret ws, w).
Proof.
  intros H. unfold _load_wallets, try_except, read_wallet_file.
  rewrite H. reflexivity.
Qed.

(** ** Saving *)

Lemma save_ret E self ws w w' :
  _save_wallets E self ws w = (Ret tt, w') ->
  file_write E (clock w) = WriteOk /\
  fs w' = <[wallet_file self := Stored ws]> (fs w) /\
  clock w' = S (clock w).
Proof.
  unfold _save_wallets, try_except, write_wallet_file, bind, tick. simpl.
  destruct (file_write E (clock w)) as [|e|e]; simpl.
  - intros [= <-]. auto.
  - destruct (issubclass (lib_cls e) OSError || false); discriminate.
  - destruct (issubclass (lib_cls e) OSError || false); discriminate.
Qed.

Lemma save_ok E self ws w :
  file_write E (clock w) = WriteOk ->
  _save_wallets E self ws w =
    (Ret tt, mkWorld (<[wallet_file self := Stored ws]> (fs w)) (S (clock w)) (stdout w)).
Proof.
  intros H.
  unfold _save_wallets, try_except, write_wallet_file, bind, tick. simpl.
  rewrite H. reflexivity.
Qed.

(** ** Generating *)

Lemma chain_tag_supported ch :
  in_list ch ["eth"; "sol"] = true -> chain_tag ch = ch.
Proof.
  unfold in_list, chain_tag. simpl.
  destruct (String.eqb_spec ch "eth") as [->|_]; [reflexivity|].
  destruct (String.eqb_spec ch "sol") as [->|_]; [reflexivity|].
  discriminate.
Qed.

(** Generating a wallet touches no file and prints nothing. *)
Lemma new_wallet_frame E self ch w r w' :
  new_wallet E self ch w = (r, w') ->
  fs w' = fs w /\ stdout w' = stdout w.
Proof.
  unfold new_wallet.
  destruct (String.eqb ch "eth").
  - run_monad. destruct (w3 self); simpl.
    + destruct (w3_latest_timestamp E (S (clock w))); simpl; intros [= _ <-]; auto.
    + intros [= _ <-]; auto.
  - run_monad. destruct (sol_client self); simpl.
    + destruct (sol_get_block_height E (S (clock w))) as [[v|[i|e]]|e]; simpl;
        intros [= _ <-]; auto.
    + intros [= _ <-]; auto.
Qed.

Lemma new_wallet_ret E self ch w x w' :
  new_wallet E self ch w = (Ret x, w') ->
  chain x = chain_tag ch /\ clock w' = S (S (clock w)).
Proof.
  unfold new_wallet, chain_tag.
  destruct (String.eqb ch "eth").
  - run_monad. destruct (w3 self); simpl.
    + destruct (w3_latest_timestamp E (S (clock w))); simpl; intros [= <- <-]; auto.
    + discriminate.
  - run_monad. destruct (sol_client self); simpl.
    + destruct (sol_get_block_height E (S (clock w))) as [[v|[i|e]]|e]; simpl;
        intros [= <- <-]; auto.
    + discriminate.
Qed.

Lemma new_wallet_raise E self ch w e w' :
  new_wallet E self ch w = (Raise e, w') -> foreign_message (exn_msg e).
Proof.
  unfold new_wallet.
  destruct (String.eqb ch "eth").
  - run_monad. destruct (w3 self); simpl.
    + destruct (w3_latest_timestamp E (S (clock w))); simpl; intros [= <- _]; exact I.
    + intros [= <- _]; exact I.
  - run_monad. destruct (sol_client self); simpl.
    + destruct (sol_get_block_height E (S (clock w))) as [[v|[i|e0]]|e0]; simpl;
        intros [= <- _]; exact I.
    + intros [= <- _]; exact I.
Qed.

Lemma create_loop_frame E self ch n : forall acc w r w',
  create_loop E self n ch acc w = (r, w') ->
  fs w' = fs w /\ stdout w' = stdout w.
Proof.
  induction n as [|n IH]; intros acc w r w'; simpl.
  - intros [= _ <-]. auto.
  - unfold bind at 1.
    destruct (new_wallet E self ch w) as [[x|e] w1] eqn:Hx.
    + intros H. apply IH in H. apply new_wallet_frame in Hx.
      destruct H as [-> ->]. exact Hx.
    + intros [= _ <-]. eapply new_wallet_frame. exact Hx.
Qed.

Lemma create_loop_ret E self ch n : forall acc w new w',
  create_loop E self n ch acc w = (Ret new, w') ->
  exists added,
    new = acc ++ added /\ length added = n /\
    Forall (fun x => chain x = chain_tag ch) added /\
    clock w' = (2 * n + clock w)%nat.
Proof.
  induction n as [|n IH]; intros acc w new w'; simpl.
  - intros [= <- <-]. exists []. rewrite app_nil_r. repeat split. constructor.
  - unfold bind at 1.
    destruct (new_wallet E self ch w) as [[x|e] w1] eqn:Hx; [|discriminate].
    intros H. apply IH in H. destruct H as (added & -> & Hlen & Hall & Hclk).
    apply new_wallet_ret in Hx. destruct Hx as [Hch Hc1].
    exists (x :: added). repeat split.
    + rewrite <- app_assoc. reflexivity.
    + simpl. rewrite Hlen. reflexivity.
    + constructor; assumption.
    + rewrite Hclk, Hc1. lia.
Qed.

Lemma create_loop_raise E self ch n : forall acc w e w',
  create_loop E self n ch acc w = (Raise e, w') -> foreign_message (exn_msg e).
Proof.
  induction n as [|n IH]; intros acc w e w'; simpl.
  - discriminate.
  - unfold bind at 1.
    destruct (new_wallet E self ch w) as [[x|e0] w1] eqn:Hx.
    + apply IH.
    + intros [= <- _]. eapply new_wallet_raise. exact Hx.
Qed.

(** What [create_wallets] does once its three guards have passed. *)
Lemma create_wallets_valid E self n ch :
  0 <= n -> in_list ch ["eth"; "sol"] = true -> ch = network self ->
  create_wallets E self n ch =
    (let! wallets := _load_wallets self in
     let! new_wallets := create_loop E self (Z.to_nat n) ch [] in
     do! _save_wallets E self (wallets ++ new_wallets) in
     ret new_wallets).
Proof.
  intros Hn Hin ->. unfold create_wallets.
  destruct (Z.ltb_spec n 0) as [?|_]; [lia|].
  rewrite Hin. simpl. rewrite String.eqb_refl. reflexivity.
Qed.

(** A normal return of [create_wallets] means that the guards passed
    and that the load, the loop and the save all returned. *)
Lemma create_wallets_ret_inv E self n ch w new w' :
  create_wallets E self n ch w = (Ret new, w') ->
  0 <= n /\ in_list ch ["eth"; "sol"] = true /\ ch = network self /\
  exists w0 w1,
    _load_wallets self w = (Ret (stored self w), w0) /\
    create_loop E self (Z.to_nat n) ch [] w0 = (Ret new, w1) /\
    _save_wallets E self (stored self w ++ new) w1 = (Ret tt, w').
Proof.
  unfold create_wallets.
  destruct (Z.ltb_spec n 0) as [?|Hn]; [discriminate|].
  destruct (in_list ch ["eth"; "sol"]) eqn:Hin; simpl; [|discriminate].
  destruct (String.eqb_spec ch (network self)) as [Hch|?]; simpl; [|discriminate].
  intros H.
  apply bind_ret_inv in H. destruct H as (old & w0 & Hload & H).
  apply bind_ret_inv in H. destruct H as (new0 & w1 & Hloop & H).
  apply bind_ret_inv in H. destruct H as ([] & w2 & Hsave & H).
  injection H as <- <-.
  pose proof (load_ret _ _ _ _ Hload) as ->.
  repeat split; try assumption. exists w0, w1. auto.
Qed.

(** Generation followed by a reload, for every run that returns. *)
Lemma create_wallets_reload_ret E self n ch w new w' :
  create_wallets E self n ch w = (Ret new, w') ->
  fst (_load_wallets self w) = Ret (stored self w) /\
  _load_wallets self w' = (Ret (stored self w ++ new), w') /\
  Z.of_nat (length new) = n /\
  Forall (fun x => chain x = ch) new.
Proof.
  intros H. apply create_wallets_ret_inv in H.
  destruct H as (Hn & Hin & Hch & w0 & w1 & Hload & Hloop & Hsave).
  apply create_loop_ret in Hloop. destruct Hloop as (added & Hnew & Hlen & Hall & _).
  simpl in Hnew. subst new.
  apply save_ret in Hsave. destruct Hsave as (_ & Hfs & _).
  split; [rewrite Hload; reflexivity|].
  split; [|split].
  - apply load_after_store. rewrite Hfs. apply lookup_insert_eq.
  - rewrite Hlen. lia.
  - rewrite (chain_tag_supported _ Hin) in Hall. exact Hall.
Qed.

(** *** When generation returns *)

Lemma constructed_inv self :
  constructed self ->
  self = mkManager "eth" "eth_wallets.json" (Some "ETH_RPC_API") None \/
  self = mkManager "sol" "sol_wallets.json" None (Some "SOL_RPC_API").
Proof.
  intros (E & net & w0 & w1 & H). unfold init, NETWORKS, WALLET_FILES in H.
  destruct (String.eqb_spec net "eth") as [->|Heth].
  - rewrite !lookup_insert_eq in H. simpl in H.
    unfold bind, tick, lift_lib, ret, raise in H. simpl in H.
    destruct (w3_is_connected E (clock w0)) as [[|]|err]; try discriminate.
    injection H as <- _. left. reflexivity.
  - destruct (String.eqb_spec net "sol") as [->|Hsol].
    + rewrite !(lookup_insert_ne _ "eth" "sol") in H by discriminate.
      rewrite !lookup_insert_eq in H. simpl in H.
      unfold bind, tick, lift_lib, ret, raise in H. simpl in H.
      destruct (sol_is_connected E (clock w0)) as [[|]|err]; try discriminate.
      injection H as <- _. right. reflexivity.
    + rewrite lookup_insert_ne in H by congruence.
      rewrite lookup_insert_ne in H by congruence.
      rewrite lookup_empty in H. discriminate.
Qed.

Lemma new_wallet_returns E self w :
  constructed self -> reliable E ->
  exists x w', new_wallet E self (network self) w = (Ret x, w').
Proof.
  intros Hc HE. apply constructed_inv in Hc. destruct Hc as [-> | ->].
  - unfold new_wallet. simpl. run_monad.
    destruct (timestamp_answers E HE (S (clock w))) as [z ->]. simpl. eauto.
  - unfold new_wallet. simpl. run_monad.
    pose proof (block_height_answers E HE (S (clock w))) as Hb.
    destruct (sol_get_block_height E (S (clock w))) as [[v|[i|e]]|e];
      simpl in *; try contradiction; eauto.
Qed.

Lemma create_loop_returns E self n :
  constructed self -> reliable E ->
  forall acc w, exists new w', create_loop E self n (network self) acc w = (Ret new, w').
Proof.
  intros Hc HE. induction n as [|n IH]; intros acc w; simpl.
  - unfold ret. eauto.
  - destruct (new_wallet_returns E self w Hc HE) as (x & w1 & Hx).
    destruct (IH (acc ++ [x]) w1) as (new & w' & Hloop).
    exists new, w'. rewrite (bind_of_ret _ _ _ _ _ Hx). exact Hloop.
Qed.

Lemma create_wallets_returns E self n w :
  0 <= n -> constructed self -> reliable E -> loads self w ->
  exists new w', create_wallets E self n (network self) w = (Ret new, w').
Proof.
  intros Hn Hc HE [old Hold].
  assert (Hin : in_list (network self) ["eth"; "sol"] = true).
  { destruct (constructed_inv _ Hc) as [-> | ->]; reflexivity. }
  rewrite (create_wallets_valid E self n _ Hn Hin eq_refl).
  destruct (_load_wallets self w) as [r w0] eqn:Hload. simpl in Hold. subst r.
  destruct (create_loop_returns E self (Z.to_nat n) Hc HE [] w0) as (new & w1 & Hloop).
  exists new. eexists.
  rewrite (bind_of_ret _ _ _ _ _ Hload).
  rewrite (bind_of_ret _ _ _ _ _ Hloop).
  rewrite (bind_of_ret _ _ _ _ _ (save_ok E self _ w1 (write_succeeds E HE _))).
  reflexivity.
Qed.

Lemma load_raise self w e w' :
  _load_wallets self w = (Raise e, w') -> foreign_message (exn_msg e).
Proof.
  unfold _load_wallets, try_except, read_wallet_file.
  destruct (fs w !! wallet_file self) as [[ws0| |e0]|]; simpl; try discriminate.
  destruct (issubclass (lib_cls e0) JSONDecodeError || false); simpl.
  - discriminate.
  - intros [= <- _]. exact I.
Qed.

Lemma save_raise E self ws w e w' :
  _save_wallets E self ws w = (Raise e, w') -> foreign_message (exn_msg e).
Proof.
  unfold _save_wallets, try_except, write_wallet_file, bind, tick. simpl.
  destruct (file_write E (clock w)) as [|e0|e0]; simpl.
  - discriminate.
  - destruct (issubclass (lib_cls e0) OSError || false); intros [= <- _]; exact I.
  - destruct (issubclass (lib_cls e0) OSError || false); intros [= <- _]; exact I.
Qed.

(** ** The claims *)

(** C9.  Loading the wallet collection from a missing file or from a
    file that holds malformed JSON returns the empty collection: no
    exception reaches the caller, and the file is left as it was. *)
Theorem load_missing_or_corrupt_is_empty self w :
  fs w !! wallet_file self = None \/ fs w !! wallet_file self = Some Corrupt ->
  fst (_load_wallets self w) = Ret [] /\
  fs (snd (_load_wallets self w)) = fs w.
Proof.
  unfold _load_wallets, try_except, read_wallet_file.
  intros [-> | ->]; simpl; split; reflexivity.
Qed.

Lemma load_missing_or_corrupt_is_empty_witness :
  fst (_load_wallets Examples.eth_manager Examples.corrupt_world) = Ret [] /\
  fs (snd (_load_wallets Examples.eth_manager Examples.corrupt_world))
    = fs Examples.corrupt_world.
Proof.
  apply (load_missing_or_corrupt_is_empty Examples.eth_manager Examples.corrupt_world).
  right. reflexivity.
Defined.

(** C6.  For a count [n >= 0] and the chain of a constructed manager,
    with collaborators that answer and a wallet file that loads,
    [create_wallets n chain] returns; the sequence it returns has
    length exactly [n]; a reload of the wallet file then yields the
    previous collection followed by the new records, hence a collection
    exactly [n] longer; and every new record's [chain] field is the
    requested chain. *)
Theorem create_wallets_then_reload E self n ch w :
  0 <= n -> constructed self -> ch = network self ->
  reliable E -> loads self w ->
  exists new w' old,
    create_wallets E self n ch w = (Ret new, w') /\
    fst (_load_wallets self w) = Ret old /\
    fst (_load_wallets self w') = Ret (old ++ new) /\
    Z.of_nat (length (old ++ new)) = Z.of_nat (length old) + n /\
    Z.of_nat (length new) = n /\
    Forall (fun x => chain x = ch) new.
Proof.
  intros Hn Hc -> HE Hl.
  destruct (create_wallets_returns E self n w Hn Hc HE Hl) as (new & w' & Hrun).
  exists new, w', (stored self w).
  destruct (create_wallets_reload_ret _ _ _ _ _ _ _ Hrun) as (H1 & H2 & H3 & H4).
  rewrite H2. repeat split; try assumption.
  rewrite length_app. lia.
Qed.

Lemma env_ok_reliable : reliable Examples.env_ok.
Proof.
  constructor; intros t; simpl.
  - eexists. reflexivity.
  - exact I.
  - reflexivity.
Qed.

Lemma eth_manager_constructed : constructed Examples.eth_manager.
Proof. exists Examples.env_ok, "eth", Examples.empty_world. eexists. reflexivity. Qed.

Lemma sol_manager_constructed : constructed Examples.sol_manager.
Proof. exists Examples.env_ok, "sol", Examples.empty_world. eexists. reflexivity. Qed.

Lemma create_wallets_then_reload_witness :
  exists new w' old,
    create_wallets Examples.env_ok Examples.eth_manager 2 "eth" Examples.empty_world
      = (Ret new, w') /\
    fst (_load_wallets Examples.eth_manager Examples.empty_world) = Ret old /\
    fst (_load_wallets Examples.eth_manager w') = Ret (old ++ new) /\
    Z.of_nat (length (old ++ new)) = Z.of_nat (length old) + 2 /\
    Z.of_nat (length new) = 2 /\
    Forall (fun x => chain x = "eth") new.
Proof.
  apply (create_wallets_then_reload Examples.env_ok Examples.eth_manager 2 "eth"
           Examples.empty_world).
  - lia.
  - exact eth_manager_constructed.
  - reflexivity.
  - exact env_ok_reliable.
  - exists []. reflexivity.
Defined.

(** C7.  For a supported chain and a manager of that chain,
    [create_wallets 0 chain] returns the empty sequence, and the
    records read back from the file after the call are those read
    before it (the file itself is rewritten, which must succeed). *)
Theorem create_wallets_zero E self ch w old :
  ch = "eth" \/ ch = "sol" -> ch = network self ->
  fst (_load_wallets self w) = Ret old ->
  file_write E (clock w) = WriteOk ->
  exists w',
    create_wallets E self 0 ch w = (Ret [], w') /\
    fst (_load_wallets self w') = Ret old.
Proof.
  intros Hsup Hch Hload Hwrite.
  assert (Hin : in_list ch ["eth"; "sol"] = true)
    by (destruct Hsup as [-> | ->]; reflexivity).
  rewrite (create_wallets_valid E self 0 ch (Z.le_refl 0) Hin Hch).
  destruct (_load_wallets self w) as [r w0] eqn:Hl. simpl in Hload. subst r.
  destruct (load_frame _ _ _ _ Hl) as [Hfs Hclk].
  rewrite <- Hclk in Hwrite.
  eexists. split.
  - rewrite (bind_of_ret _ _ _ _ _ Hl). simpl.
    unfold bind at 1. unfold ret at 1.
    rewrite (bind_of_ret _ _ _ _ _ (save_ok E self _ w0 Hwrite)).
    reflexivity.
  - rewrite app_nil_r.
    erewrite load_after_store; [reflexivity|]. simpl. apply lookup_insert_eq.
Qed.

Lemma create_wallets_zero_witness :
  exists w',
    create_wallets Examples.env_ok Examples.sol_manager 0 "sol" Examples.two_sol_world
      = (Ret [], w') /\
    fst (_load_wallets Examples.sol_manager w')
      = Ret [Examples.sol_a; Examples.sol_b].
Proof.
  apply (create_wallets_zero Examples.env_ok Examples.sol_manager "sol"
           Examples.two_sol_world [Examples.sol_a; Examples.sol_b]).
  - right. reflexivity.
  - reflexivity.
  - reflexivity.
  - reflexivity.
Defined.

(** *** Validation *)

Lemma in_list_supported ch :
  in_list ch ["eth"; "sol"] = false <-> ch <> "eth" /\ ch <> "sol".
Proof.
  unfold in_list. simpl.
  destruct (String.eqb_spec ch "eth") as [H1|H1];
    destruct (String.eqb_spec ch "sol") as [H2|H2]; simpl;
    split; try discriminate; try tauto; intros [? ?]; congruence.
Qed.

(** After the guards, no exception carries a guard's message. *)
Lemma create_wallets_body_raise E self n ch w e w' :
  (let! wallets := _load_wallets self in
   let! new_wallets := create_loop E self (Z.to_nat n) ch [] in
   do! _save_wallets E self (wallets ++ new_wallets) in
   ret new_wallets) w = (Raise e, w') ->
  foreign_message (exn_msg e).
Proof.
  intros H.
  apply bind_raise_inv in H. destruct H as [H | (old & w0 & _ & H)].
  { eapply load_raise. exact H. }
  apply bind_raise_inv in H. destruct H as [H | (new & w1 & _ & H)].
  { eapply create_loop_raise. exact H. }
  apply bind_raise_inv in H. destruct H as [H | ([] & w2 & _ & H)].
  { eapply save_raise. exact H. }
  discriminate H.
Qed.

(** C8.  [create_wallets] fails with one of its validation errors (a
    [ValueError] raised by its guards) exactly when a precondition is
    violated: the count is negative, or the chain is neither ['eth']
    nor ['sol'], or the chain is not the manager's; and then nothing
    happens: no key is generated, no collaborator is called, and the
    files are unchanged. *)
Theorem create_wallets_validation E self n ch w :
  ((exists e, fst (create_wallets E self n ch w) = Raise e /\
              validation_error self ch e)
   <-> precondition_violated self n ch) /\
  (precondition_violated self n ch ->
   snd (create_wallets E self n ch w) = w).
Proof.
  unfold precondition_violated.
  destruct (Z.ltb_spec n 0) as [Hn|Hn].
  { unfold create_wallets. destruct (Z.ltb_spec n 0); [|lia]. simpl.
    split; [split|]; auto.
    intros _. eexists. split; [reflexivity|]. split; simpl; auto. }
  destruct (in_list ch ["eth"; "sol"]) eqn:Hin.
  2:{ unfold create_wallets. destruct (Z.ltb_spec n 0); [lia|].
      rewrite Hin. simpl. apply in_list_supported in Hin.
      split; [split|]; auto.
      intros _. eexists. split; [reflexivity|]. split; simpl; auto. }
  destruct (String.eqb_spec ch (network self)) as [Hch|Hch].
  2:{ unfold create_wallets. destruct (Z.ltb_spec n 0); [lia|].
      rewrite Hin. simpl.
      destruct (String.eqb_spec ch (network self)); [contradiction|]. simpl.
      split; [split|]; auto.
      intros _. eexists. split; [reflexivity|]. split; simpl; auto. }
  assert (Hok : ~ (n < 0 \/ (ch <> "eth" /\ ch <> "sol") \/ ch <> network self)).
  { intros [H | [H | H]]; [lia | | contradiction].
    apply in_list_supported in H. congruence. }
  split; [split|]; [|tauto|tauto].
  intros (e & Hraise & _ & Hmsg). exfalso.
  rewrite (create_wallets_valid E self n ch Hn Hin Hch) in Hraise.
  match type of Hraise with fst (?c w) = _ => destruct (c w) as [r w'] eqn:Hrun end.
  simpl in Hraise. subst r.
  apply create_wallets_body_raise in Hrun.
  destruct Hmsg as [Hm | [Hm | Hm]]; rewrite Hm in Hrun; exact Hrun.
Qed.

(** A [ValueError] of a collaborator is not a validation error: it
    leaves [create_wallets] with the collaborator's own text, and only
    after a key was generated. *)
Example create_wallets_collaborator_value_error :
  create_wallets Examples.env_rpc_error Examples.eth_manager 1 "eth" Examples.empty_world
    = (Raise (Exn ValueError (msg_lib "rpc error")), mkWorld ∅ 2 []).
Proof. reflexivity. Qed.

(** *** Balance *)

(** C10.  For a chain argument that is neither ['eth'] nor ['sol'],
    [get_balance] returns [0.0] and does not raise, whatever the address
    and the manager: the [ValueError] of the last branch is caught by
    the handler of [get_balance] itself, which prints a warning. *)
Theorem get_balance_unsupported_chain E self addr ch w :
  ch <> "eth" -> ch <> "sol" ->
  get_balance E self addr ch w =
    (Ret float_zero,
     mkWorld (fs w) (clock w)
       (stdout w ++ [warn_balance addr msg_unsupported_chain_type])).
Proof.
  intros Heth Hsol. unfold get_balance, try_except, query_balance.
  destruct (String.eqb_spec ch "eth"); [contradiction|].
  destruct (String.eqb_spec ch "sol"); [contradiction|].
  reflexivity.
Qed.

Lemma get_balance_unsupported_chain_witness :
  get_balance Examples.env_ok Examples.eth_manager "0xA" "btc" Examples.empty_world =
    (Ret float_zero,
     mkWorld ∅ 0 [warn_balance "0xA" msg_unsupported_chain_type]).
Proof.
  apply (get_balance_unsupported_chain Examples.env_ok Examples.eth_manager
           "0xA" "btc" Examples.empty_world).
  - discriminate.
  - discriminate.
Defined.

(** C1, as the code has it.  [get_balance] returns the float of a query
    that succeeds; it returns exactly [0.0], after a warning, when the
    query raises a [Web3Exception] or a [ValueError]; an exception of
    any other class is not handled and reaches the caller.  Hence an
    exception that leaves [get_balance] is of neither class. *)
Theorem get_balance_handles E self addr ch w :
  match query_balance E self addr ch w with
  | (Ret f, w') => get_balance E self addr ch w = (Ret f, w')
  | (Raise e, w') =>
      if caught_by_get_balance e
      then get_balance E self addr ch w =
             (Ret float_zero,
              mkWorld (fs w') (clock w') (stdout w' ++ [warn_balance addr (exn_msg e)]))
      else get_balance E self addr ch w = (Raise e, w')
  end /\
  (forall e, fst (get_balance E self addr ch w) = Raise e ->
             caught_by_get_balance e = false).
Proof.
  unfold get_balance, try_except, caught_by_get_balance.
  destruct (query_balance E self addr ch w) as [[f|e] w']; simpl.
  - split; [reflexivity | discriminate].
  - rewrite orb_false_r.
    destruct (issubclass (exn_cls e) Web3Exception || issubclass (exn_cls e) ValueError) eqn:Hc.
    + split; [reflexivity | discriminate].
    + split; [reflexivity|]. simpl. intros e0 [= <-]. exact Hc.
Qed.

(** A malformed Solana address gives [0.0], with any manager. *)
Lemma get_balance_malformed_sol_address E self addr w err :
  pubkey_from_string E addr = LibErr err ->
  issubclass (lib_cls err) ValueError = true ->
  fst (get_balance E self addr "sol" w) = Ret float_zero.
Proof.
  intros Hpk Hcls. unfold get_balance, try_except, query_balance. simpl.
  run_monad. rewrite Hpk. simpl. rewrite Hcls, orb_true_r. reflexivity.
Qed.

(** An error of the Ethereum endpoint gives [0.0] when web3 reports it as
    a [Web3Exception] or a [ValueError], and is raised otherwise. *)
Lemma get_balance_eth_rpc_error E self addr w endpoint err :
  w3 self = Some endpoint ->
  w3_get_balance E (clock w) addr = LibErr err ->
  fst (get_balance E self addr "eth" w) =
    if issubclass (lib_cls err) Web3Exception || issubclass (lib_cls err) ValueError
    then Ret float_zero else Raise (of_lib err).
Proof.
  intros Hw3 Hrpc. unfold get_balance, try_except, query_balance. simpl.
  run_monad. rewrite Hw3. simpl. rewrite Hrpc. simpl. rewrite orb_false_r.
  destruct (issubclass (lib_cls err) Web3Exception || issubclass (lib_cls err) ValueError);
    reflexivity.
Qed.

(** C1 as stated fails.  A manager built for Solana has no [w3]
    attribute, so a query for chain ['eth'] raises [AttributeError]; and
    a transport error of the endpoint, the [ConnectionError] of requests
    (an [OSError], neither a [Web3Exception] nor a [ValueError]), passes
    through the handler.  In both cases the caller gets an exception
    and no float. *)
Lemma get_balance_raises :
  fst (init Examples.env_ok "sol" Examples.empty_world) = Ret Examples.sol_manager /\
  fst (get_balance Examples.env_ok Examples.sol_manager "SoA" "eth" Examples.two_sol_world)
    = Raise (Exn AttributeError (msg_no_attribute "w3")) /\
  fst (get_balance Examples.env_offline Examples.eth_manager Examples.zero_address "eth"
         Examples.empty_world)
    = Raise (Exn RequestsConnectionError (msg_lib "connection refused")).
Proof. repeat split; reflexivity. Qed.

(** *** A failed save *)

(** C2, as the code has it.  When the generation has produced its
    records and the write of the file then fails with an [OSError]
    ([IOError]), [create_wallets] raises an [IOError] that names the
    file and the cause, and returns nothing: the new records do not
    reach the caller. *)
Theorem create_wallets_save_failure E self n ch w old w0 new w1 err :
  0 <= n -> ch = "eth" \/ ch = "sol" -> ch = network self ->
  _load_wallets self w = (Ret old, w0) ->
  create_loop E self (Z.to_nat n) ch [] w0 = (Ret new, w1) ->
  file_write E (clock w1) = WriteFailOpen err \/
  file_write E (clock w1) = WriteFailPartial err ->
  issubclass (lib_cls err) OSError = true ->
  fst (create_wallets E self n ch w) =
    Raise (Exn OSError (msg_save_failed (wallet_file self) (msg_lib (lib_text err)))) /\
  (forall r, fst (create_wallets E self n ch w) <> Ret r).
Proof.
  intros Hn Hsup Hch Hload Hloop Hwrite Hcls.
  assert (Hin : in_list ch ["eth"; "sol"] = true)
    by (destruct Hsup as [-> | ->]; reflexivity).
  rewrite (create_wallets_valid E self n ch Hn Hin Hch).
  rewrite (bind_of_ret _ _ _ _ _ Hload), (bind_of_ret _ _ _ _ _ Hloop).
  assert (Hsave : fst (_save_wallets E self (old ++ new) w1) =
            Raise (Exn OSError (msg_save_failed (wallet_file self) (msg_lib (lib_text err))))).
  { unfold _save_wallets, try_except, write_wallet_file, bind, tick. simpl.
    destruct Hwrite as [-> | ->]; simpl; rewrite Hcls; reflexivity. }
  destruct (_save_wallets E self (old ++ new) w1) as [[[]|e] w2] eqn:Hs;
    simpl in Hsave; [discriminate|].
  rewrite (bind_of_raise _ _ _ _ _ Hs). simpl.
  injection Hsave as ->.
  split; [reflexivity | discriminate].
Qed.

Lemma create_wallets_save_failure_witness :
  fst (create_wallets Examples.env_disk_full Examples.eth_manager 1 "eth" Examples.empty_world) =
    Raise (Exn OSError (msg_save_failed "eth_wallets.json" (msg_lib "No space left on device"))) /\
  (forall r, fst (create_wallets Examples.env_disk_full Examples.eth_manager 1 "eth"
                    Examples.empty_world) <> Ret r).
Proof.
  apply (create_wallets_save_failure Examples.env_disk_full Examples.eth_manager 1 "eth"
           Examples.empty_world [] Examples.empty_world
           [mkWallet "eth" "0xA" "kA" 1700000001] (mkWorld ∅ 2 [])
           (LibError OSError "No space left on device")).
  - lia.
  - left. reflexivity.
  - reflexivity.
  - reflexivity.
  - reflexivity.
  - left. reflexivity.
  - reflexivity.
Defined.

(** C2 as stated fails: with a full disk the caller of
    [create_wallets 1 'eth'] gets the [IOError] and no records. *)
Lemma full_disk_returns_no_records :
  create_wallets Examples.env_disk_full Examples.eth_manager 1 "eth" Examples.empty_world =
    (Raise (Exn OSError (msg_save_failed "eth_wallets.json" (msg_lib "No space left on device"))),
     mkWorld ∅ 3 []) /\
  ~ (exists new,
       fst (create_wallets Examples.env_disk_full Examples.eth_manager 1 "eth"
              Examples.empty_world) = Ret new).
Proof.
  split; [reflexivity|]. intros [new H]. discriminate H.
Qed.

(** ** Topping up *)

Lemma stored_same_fs self w1 w2 : fs w2 = fs w1 -> stored self w2 = stored self w1.
Proof. intros H. unfold stored. rewrite H. reflexivity. Qed.

(** What [manage_wallets] does once its two guards have passed. *)
Lemma manage_wallets_valid E self k ch :
  0 <= k -> ch = network self ->
  manage_wallets E self k ch =
    (let! wallets := _load_wallets self in
     if k <=? Z.of_nat (length wallets) then ret (slice_to k wallets)
     else
       let! new_wallets := create_wallets E self (k - Z.of_nat (length wallets)) ch in
       ret (wallets ++ new_wallets)).
Proof.
  intros Hk ->. unfold manage_wallets.
  destruct (Z.ltb_spec k 0) as [?|_]; [lia|].
  rewrite String.eqb_refl. reflexivity.
Qed.

(** A request that the collection already meets is a read. *)
Lemma manage_wallets_read E self k ch w wallets w0 :
  0 <= k -> ch = network self ->
  _load_wallets self w = (Ret wallets, w0) ->
  k <= Z.of_nat (length wallets) ->
  manage_wallets E self k ch w = (Ret (firstn (Z.to_nat k) wallets), w0).
Proof.
  intros Hk Hch Hload Hle.
  rewrite (manage_wallets_valid E self k ch Hk Hch).
  rewrite (bind_of_ret _ _ _ _ _ Hload).
  destruct (Z.leb_spec k (Z.of_nat (length wallets))) as [_|?]; [|lia].
  reflexivity.
Qed.

(** The state in which a call of [manage_wallets] that returns leaves
    the wallet file. *)
Lemma manage_wallets_ret_inv E self k ch w r w1 :
  manage_wallets E self k ch w = (Ret r, w1) ->
  0 <= k /\ ch = network self /\
  fst (_load_wallets self w) = Ret (stored self w) /\
  fst (_load_wallets self w1) = Ret (stored self w1) /\
  (exists new, stored self w1 = stored self w ++ new) /\
  Z.of_nat (length (stored self w1)) = Z.max k (Z.of_nat (length (stored self w))) /\
  r = firstn (Z.to_nat k) (stored self w1).
Proof.
  unfold manage_wallets.
  destruct (Z.ltb_spec k 0) as [?|Hk]; [discriminate|].
  destruct (String.eqb_spec ch (network self)) as [Hch|?]; simpl; [|discriminate].
  intros H. apply bind_ret_inv in H. destruct H as (wallets & w0 & Hload & H).
  pose proof (load_ret _ _ _ _ Hload) as ->.
  destruct (load_frame _ _ _ _ Hload) as [Hfs _].
  split; [exact Hk|]. split; [exact Hch|].
  split; [rewrite Hload; reflexivity|].
  destruct (Z.leb_spec k (Z.of_nat (length (stored self w)))) as [Hle|Hgt].
  - injection H as <- <-.
    rewrite (stored_same_fs self w w0 Hfs).
    split; [rewrite (load_same_fs self w w0 Hfs), Hload; reflexivity|].
    split; [exists []; rewrite app_nil_r; reflexivity|].
    split; [lia | reflexivity].
  - apply bind_ret_inv in H. destruct H as (new & w' & Hcreate & H).
    injection H as <- <-.
    apply create_wallets_reload_ret in Hcreate.
    destruct Hcreate as (_ & Hreload & Hlen & _).
    rewrite (stored_same_fs self w w0 Hfs) in Hreload.
    pose proof (load_ret _ _ _ _ Hreload) as Hst.
    rewrite <- Hst. rewrite Hreload.
    split; [reflexivity|].
    split; [exists new; reflexivity|].
    split.
    + rewrite length_app. lia.
    + rewrite firstn_all2; [reflexivity|]. rewrite length_app. lia.
Qed.

(** C3.  For a request [k >= 0] on the manager's chain, with [wallets]
    the collection that the load returns: if [k] is at most its size,
    [manage_wallets] returns its first [k] records, writes no file and
    calls no collaborator; otherwise it calls
    [create_wallets (k - size) chain] and returns [wallets] followed by
    the records that call returns (and raises what that call raises). *)
Theorem manage_wallets_spec E self k ch w wallets w0 :
  0 <= k -> ch = network self ->
  _load_wallets self w = (Ret wallets, w0) ->
  manage_wallets E self k ch w =
    (if k <=? Z.of_nat (length wallets)
     then (Ret (firstn (Z.to_nat k) wallets), w0)
     else match create_wallets E self (k - Z.of_nat (length wallets)) ch w0 with
          | (Ret new_wallets, w') => (Ret (wallets ++ new_wallets), w')
          | (Raise e, w') => (Raise e, w')
          end) /\
  fs w0 = fs w /\ clock w0 = clock w /\
  fst (_load_wallets self w0) = Ret wallets.
Proof.
  intros Hk Hch Hload. destruct (load_frame _ _ _ _ Hload) as [Hfs Hclk].
  split; [|split; [exact Hfs|split; [exact Hclk|]]].
  - destruct (Z.leb_spec k (Z.of_nat (length wallets))) as [Hle|Hgt].
    + exact (manage_wallets_read E self k ch w wallets w0 Hk Hch Hload Hle).
    + rewrite (manage_wallets_valid E self k ch Hk Hch).
      rewrite (bind_of_ret _ _ _ _ _ Hload).
      destruct (Z.leb_spec k (Z.of_nat (length wallets))) as [?|_]; [lia|].
      unfold bind.
      destruct (create_wallets E self (k - Z.of_nat (length wallets)) ch w0)
        as [[new|e] w']; reflexivity.
  - rewrite (load_same_fs self w w0 Hfs), Hload. reflexivity.
Qed.

(** The scenario of the specification: two stored Solana records and a
    request for one. *)
Lemma manage_wallets_spec_witness :
  manage_wallets Examples.env_ok Examples.sol_manager 1 "sol" Examples.two_sol_world =
    (if 1 <=? Z.of_nat (length [Examples.sol_a; Examples.sol_b])
     then (Ret (firstn (Z.to_nat 1) [Examples.sol_a; Examples.sol_b]), Examples.two_sol_world)
     else match create_wallets Examples.env_ok Examples.sol_manager
                  (1 - Z.of_nat (length [Examples.sol_a; Examples.sol_b])) "sol"
                  Examples.two_sol_world with
          | (Ret new_wallets, w') =>
              (Ret ([Examples.sol_a; Examples.sol_b] ++ new_wallets), w')
          | (Raise e, w') => (Raise e, w')
          end) /\
  fs Examples.two_sol_world = fs Examples.two_sol_world /\
  clock Examples.two_sol_world = clock Examples.two_sol_world /\
  fst (_load_wallets Examples.sol_manager Examples.two_sol_world)
    = Ret [Examples.sol_a; Examples.sol_b].
Proof.
  apply (manage_wallets_spec Examples.env_ok Examples.sol_manager 1 "sol"
           Examples.two_sol_world [Examples.sol_a; Examples.sol_b] Examples.two_sol_world).
  - lia.
  - reflexivity.
  - reflexivity.
Defined.

(** The same scenario, evaluated: the first record, and an untouched world. *)
Example manage_wallets_shrinking_request :
  manage_wallets Examples.env_ok Examples.sol_manager 1 "sol" Examples.two_sol_world
    = (Ret [Examples.sol_a], Examples.two_sol_world).
Proof. reflexivity. Qed.

(** After a call of [manage_wallets] that returns, the same call again
    is a read that returns the same records. *)
Lemma manage_wallets_second_call E self k ch w r1 w1 :
  manage_wallets E self k ch w = (Ret r1, w1) ->
  exists w2 old new,
    manage_wallets E self k ch w1 = (Ret r1, w2) /\
    fs w2 = fs w1 /\ clock w2 = clock w1 /\
    fst (_load_wallets self w) = Ret old /\
    fst (_load_wallets self w1) = Ret (old ++ new) /\
    fst (_load_wallets self w2) = Ret (old ++ new) /\
    Z.of_nat (length (old ++ new)) = Z.max k (Z.of_nat (length old)).
Proof.
  intros H. apply manage_wallets_ret_inv in H.
  destruct H as (Hk & Hch & Hl0 & Hl1 & (new & Hst) & Hlen & Hr).
  destruct (_load_wallets self w1) as [r w2] eqn:Hload1. simpl in Hl1. subst r.
  destruct (load_frame _ _ _ _ Hload1) as [Hfs Hclk].
  exists w2, (stored self w), new. rewrite <- Hst.
  split.
  { rewrite Hr. apply (manage_wallets_read E self k ch w1 _ w2 Hk Hch Hload1). lia. }
  split; [exact Hfs|]. split; [exact Hclk|]. split; [exact Hl0|].
  split; [reflexivity|].
  split; [|exact Hlen].
  rewrite (load_same_fs self w1 w2 Hfs), Hload1. reflexivity.
Qed.

(** With collaborators that answer, a call of [manage_wallets] returns. *)
Lemma manage_wallets_returns E self k w :
  0 <= k -> constructed self -> reliable E -> loads self w ->
  exists r w', manage_wallets E self k (network self) w = (Ret r, w').
Proof.
  intros Hk Hc HE [old Hold].
  destruct (_load_wallets self w) as [r0 w0] eqn:Hload. simpl in Hold. subst r0.
  destruct (load_frame _ _ _ _ Hload) as [Hfs _].
  destruct (Z.le_gt_cases k (Z.of_nat (length old))) as [Hle|Hgt].
  - rewrite (manage_wallets_read E self k _ w old w0 Hk eq_refl Hload Hle). eauto.
  - rewrite (manage_wallets_valid E self k _ Hk eq_refl).
    rewrite (bind_of_ret _ _ _ _ _ Hload).
    destruct (Z.leb_spec k (Z.of_nat (length old))) as [?|_]; [lia|].
    destruct (create_wallets_returns E self (k - Z.of_nat (length old)) w0)
      as (new & w' & Hnew); try assumption.
    + lia.
    + exists old. rewrite (load_same_fs self w w0 Hfs), Hload. reflexivity.
    + rewrite (bind_of_ret _ _ _ _ _ Hnew). unfold ret. eauto.
Qed.

(** C4.  [manage_wallets] is idempotent.  For a request [k >= 0] on
    the chain of a constructed manager, with collaborators that answer
    and a wallet file that loads, the call returns and leaves the
    collection - the old records followed by the new ones - with size
    [max k size_before]; a second call with the same [k] returns the
    same records, calls no collaborator and writes no file, so that the
    collection read back is the same and no record is duplicated. *)
Theorem manage_wallets_idempotent E self k ch w :
  0 <= k -> constructed self -> ch = network self ->
  reliable E -> loads self w ->
  exists r1 w1 w2 old new,
    manage_wallets E self k ch w = (Ret r1, w1) /\
    manage_wallets E self k ch w1 = (Ret r1, w2) /\
    fs w2 = fs w1 /\ clock w2 = clock w1 /\
    fst (_load_wallets self w) = Ret old /\
    fst (_load_wallets self w1) = Ret (old ++ new) /\
    fst (_load_wallets self w2) = Ret (old ++ new) /\
    Z.of_nat (length (old ++ new)) = Z.max k (Z.of_nat (length old)).
Proof.
  intros Hk Hc -> HE Hl.
  destruct (manage_wallets_returns E self k w Hk Hc HE Hl) as (r1 & w1 & Hfirst).
  destruct (manage_wallets_second_call E self k _ w r1 w1 Hfirst)
    as (w2 & old & new & Hsecond).
  exists r1, w1, w2, old, new. split; [exact Hfirst | exact Hsecond].
Qed.

Lemma manage_wallets_idempotent_witness :
  exists r1 w1 w2 old new,
    manage_wallets Examples.env_ok Examples.sol_manager 3 "sol" Examples.two_sol_world
      = (Ret r1, w1) /\
    manage_wallets Examples.env_ok Examples.sol_manager 3 "sol" w1 = (Ret r1, w2) /\
    fs w2 = fs w1 /\ clock w2 = clock w1 /\
    fst (_load_wallets Examples.sol_manager Examples.two_sol_world) = Ret old /\
    fst (_load_wallets Examples.sol_manager w1) = Ret (old ++ new) /\
    fst (_load_wallets Examples.sol_manager w2) = Ret (old ++ new) /\
    Z.of_nat (length (old ++ new)) = Z.max 3 (Z.of_nat (length old)).
Proof.
  apply (manage_wallets_idempotent Examples.env_ok Examples.sol_manager 3 "sol"
           Examples.two_sol_world).
  - lia.
  - exact sol_manager_constructed.
  - reflexivity.
  - exact env_ok_reliable.
  - exists [Examples.sol_a; Examples.sol_b]. reflexivity.
Defined.

(** The run of the witness, evaluated: a third wallet is generated and
    saved, and the second call returns the same three records. *)
Example manage_wallets_twice :
  manage_wallets Examples.env_ok Examples.sol_manager 3 "sol" Examples.two_sol_world
    = (Ret [Examples.sol_a; Examples.sol_b; Examples.sol_h], Examples.three_sol_world) /\
  manage_wallets Examples.env_ok Examples.sol_manager 3 "sol" Examples.three_sol_world
    = (Ret [Examples.sol_a; Examples.sol_b; Examples.sol_h], Examples.three_sol_world).
Proof. split; vm_compute; reflexivity. Qed.

(** A sequence of requests that the collection already meets consists
    of reads: every call returns and the files stay as they are. *)
Lemma manage_sequence_reads E self ch ks : forall w,
  ch = network self ->
  fst (_load_wallets self w) = Ret (stored self w) ->
  Forall (fun k => 0 <= k <= Z.of_nat (length (stored self w))) ks ->
  exists rs w', manage_sequence E self ch ks w = (Ret rs, w') /\ fs w' = fs w.
Proof.
  induction ks as [|k ks IH]; intros w Hch Hl Hall; simpl.
  - exists [], w. split; reflexivity.
  - inversion Hall as [|? ? [Hk Hle] Hrest]; subst.
    destruct (_load_wallets self w) as [r w0] eqn:Hload. simpl in Hl. subst r.
    destruct (load_frame _ _ _ _ Hload) as [Hfs _].
    pose proof (manage_wallets_read E self k (network self) w _ w0 Hk eq_refl Hload Hle) as Hrun.
    destruct (IH w0 eq_refl) as (rs & w' & Hseq & Hfs').
    + rewrite (load_same_fs self w w0 Hfs), Hload, (stored_same_fs self w w0 Hfs).
      reflexivity.
    + rewrite (stored_same_fs self w w0 Hfs). exact Hrest.
    + exists (firstn (Z.to_nat k) (stored self w) :: rs), w'.
      rewrite (bind_of_ret _ _ _ _ _ Hrun), (bind_of_ret _ _ _ _ _ Hseq).
      split; [reflexivity | congruence].
Qed.

(** Whatever the requests, a sequence of calls that all return keeps
    the records that were there, in their order, at the front. *)
Lemma manage_sequence_preserves E self ch ks : forall w rs w',
  manage_sequence E self ch ks w = (Ret rs, w') ->
  exists extra, stored self w' = stored self w ++ extra.
Proof.
  induction ks as [|k ks IH]; intros w rs w'; simpl.
  - intros [= _ <-]. exists []. rewrite app_nil_r. reflexivity.
  - intros H. apply bind_ret_inv in H. destruct H as (r & w1 & Hrun & H).
    apply bind_ret_inv in H. destruct H as (rs' & w2 & Hseq & H).
    injection H as _ <-.
    apply manage_wallets_ret_inv in Hrun.
    destruct Hrun as (_ & _ & _ & _ & (new & Hst) & _).
    apply IH in Hseq. destruct Hseq as (extra & Hst').
    exists (new ++ extra). rewrite Hst', Hst, app_assoc. reflexivity.
Qed.

(** C5.  [manage_wallets] never removes a record.  For requests
    [k1 >= k2 >= ...], all non-negative, whose first call returns, every
    later call returns as well and is a read; the records that were in
    the collection before the sequence are, in the same order, the
    front of the collection read back after it. *)
Theorem manage_wallets_never_removes E self ch k1 ks w r1 w1 :
  manage_wallets E self k1 ch w = (Ret r1, w1) ->
  StronglySorted Z.ge (k1 :: ks) ->
  Forall (fun k => 0 <= k) ks ->
  exists rs w' old extra,
    manage_sequence E self ch (k1 :: ks) w = (Ret (r1 :: rs), w') /\
    fs w' = fs w1 /\
    fst (_load_wallets self w) = Ret old /\
    fst (_load_wallets self w') = Ret (old ++ extra).
Proof.
  intros Hrun Hsorted Hnonneg.
  pose proof (manage_wallets_ret_inv _ _ _ _ _ _ _ Hrun)
    as (Hk & Hch & Hl0 & Hl1 & (new & Hst) & Hlen & _).
  apply StronglySorted_inv in Hsorted. destruct Hsorted as [_ Hge].
  assert (Hall : Forall (fun k => 0 <= k <= Z.of_nat (length (stored self w1))) ks).
  { rewrite Forall_forall in *. intros k Hin.
    specialize (Hge k Hin). specialize (Hnonneg k Hin). lia. }
  destruct (manage_sequence_reads E self ch ks w1 Hch Hl1 Hall) as (rs & w' & Hseq & Hfs).
  exists rs, w', (stored self w), new.
  split.
  { simpl. rewrite (bind_of_ret _ _ _ _ _ Hrun), (bind_of_ret _ _ _ _ _ Hseq). reflexivity. }
  split; [exact Hfs|]. split; [exact Hl0|].
  rewrite (load_same_fs self w1 w' Hfs), Hl1, Hst. reflexivity.
Qed.

Lemma manage_wallets_never_removes_witness :
  exists rs w' old extra,
    manage_sequence Examples.env_ok Examples.sol_manager "sol" [3; 2; 0]
      Examples.two_sol_world
      = (Ret ([Examples.sol_a; Examples.sol_b; Examples.sol_h] :: rs), w') /\
    fs w' = fs Examples.three_sol_world /\
    fst (_load_wallets Examples.sol_manager Examples.two_sol_world) = Ret old /\
    fst (_load_wallets Examples.sol_manager w') = Ret (old ++ extra).
Proof.
  apply (manage_wallets_never_removes Examples.env_ok Examples.sol_manager "sol" 3 [2; 0]
           Examples.two_sol_world
           [Examples.sol_a; Examples.sol_b; Examples.sol_h] Examples.three_sol_world).
  - vm_compute. reflexivity.
  - repeat constructor; lia.
  - repeat constructor; lia.
Defined.

(** The calls of the claims above return.  A call that raises because
    the write was interrupted is another matter: [open] has truncated
    the file, and the next load finds no record. *)
Example interrupted_write_empties_the_file :
  let run := manage_wallets Examples.env_interrupted Examples.sol_manager 3 "sol"
               Examples.two_sol_world in
  fst run = Raise (Exn OSError (msg_save_failed "sol_wallets.json"
                                  (msg_lib "No space left on device"))) /\
  fst (_load_wallets Examples.sol_manager (snd run)) = Ret [].
Proof. split; reflexivity. Qed.

(** * Further properties of the manager *)

(** ** The constructor *)

(** What [__init__] does for each of the two networks. *)
Lemma init_eth E w :
  init E "eth" w =
    (match w3_is_connected E (clock w) with
     | LibOk true => Ret (mkManager "eth" "eth_wallets.json" (Some "ETH_RPC_API") None)
     | LibOk false => Raise (Exn ConnectionError msg_ethereum_unreachable)
     | LibErr err => Raise (of_lib err)
     end,
     mkWorld (fs w) (S (clock w)) (stdout w)).
Proof.
  unfold init, NETWORKS, WALLET_FILES. rewrite !lookup_insert_eq. simpl.
  unfold bind, tick, lift_lib, ret, raise. simpl.
  destruct (w3_is_connected E (clock w)) as [[|]|err]; reflexivity.
Qed.

Lemma init_sol E w :
  init E "sol" w =
    (match sol_is_connected E (clock w) with
     | LibOk true => Ret (mkManager "sol" "sol_wallets.json" None (Some "SOL_RPC_API"))
     | LibOk false => Raise (Exn ConnectionError msg_solana_unreachable)
     | LibErr err => Raise (of_lib err)
     end,
     mkWorld (fs w) (S (clock w)) (stdout w)).
Proof.
  unfold init, NETWORKS, WALLET_FILES.
  rewrite !(lookup_insert_ne _ "eth" "sol") by discriminate.
  rewrite !lookup_insert_eq. simpl.
  unfold bind, tick, lift_lib, ret, raise. simpl.
  destruct (sol_is_connected E (clock w)) as [[|]|err]; reflexivity.
Qed.

Lemma init_unsupported E net w :
  net <> "eth" -> net <> "sol" ->
  init E net w = (Raise (Exn ValueError (msg_unsupported_network net)), w).
Proof.
  intros Heth Hsol. unfold init, NETWORKS.
  rewrite lookup_insert_ne by congruence.
  rewrite lookup_insert_ne by congruence.
  rewrite lookup_empty. reflexivity.
Qed.

Lemma init_frame E net w r w' :
  init E net w = (r, w') -> fs w' = fs w /\ stdout w' = stdout w.
Proof.
  destruct (String.eqb_spec net "eth") as [->|Heth].
  { rewrite init_eth. intros [= _ <-]. auto. }
  destruct (String.eqb_spec net "sol") as [->|Hsol].
  { rewrite init_sol. intros [= _ <-]. auto. }
  rewrite (init_unsupported E net w Heth Hsol). intros [= _ <-]. auto.
Qed.

(** [__init__] raises its own [ValueError], the one that names the
    network, exactly for a network that is neither ['eth'] nor ['sol'],
    and then before anything else happens: no client is built and no
    connection is attempted. *)
Theorem init_unsupported_network E net w :
  (fst (init E net w) = Raise (Exn ValueError (msg_unsupported_network net))
   <-> (net <> "eth" /\ net <> "sol")) /\
  (net <> "eth" /\ net <> "sol" -> snd (init E net w) = w).
Proof.
  split; [split|].
  - intros Hraise.
    destruct (String.eqb_spec net "eth") as [->|Heth].
    { exfalso. rewrite init_eth in Hraise. simpl in Hraise.
      destruct (w3_is_connected E (clock w)) as [[|]|err]; discriminate Hraise. }
    destruct (String.eqb_spec net "sol") as [->|Hsol]; [|auto].
    exfalso. rewrite init_sol in Hraise. simpl in Hraise.
    destruct (sol_is_connected E (clock w)) as [[|]|err]; discriminate Hraise.
  - intros [Heth Hsol]. rewrite (init_unsupported E net w Heth Hsol). reflexivity.
  - intros [Heth Hsol]. rewrite (init_unsupported E net w Heth Hsol). reflexivity.
Qed.

(** A manager that [__init__] returns is for the requested network,
    uses the wallet file registered for it, and holds the client of
    that network and no other; constructing it touches no file. *)
Theorem init_manager_invariant E net w self w' :
  init E net w = (Ret self, w') ->
  network self = net /\
  WALLET_FILES !! net = Some (wallet_file self) /\
  (is_Some (w3 self) <-> net = "eth") /\
  (is_Some (sol_client self) <-> net = "sol") /\
  fs w' = fs w.
Proof.
  intros H. pose proof (init_frame _ _ _ _ _ H) as [Hfs _].
  destruct (String.eqb_spec net "eth") as [->|Heth].
  { rewrite init_eth in H.
    destruct (w3_is_connected E (clock w)) as [[|]|err]; try discriminate.
    injection H as <- _. simpl. repeat split; try reflexivity; try assumption;
      try (intros [? [=]]); try discriminate; eauto. }
  destruct (String.eqb_spec net "sol") as [->|Hsol].
  { rewrite init_sol in H.
    destruct (sol_is_connected E (clock w)) as [[|]|err]; try discriminate.
    injection H as <- _. simpl. repeat split; try reflexivity; try assumption;
      try (intros [? [=]]); try discriminate; eauto. }
  exfalso. rewrite (init_unsupported E net w Heth Hsol) in H. discriminate.
Qed.

Lemma init_manager_invariant_witness :
  network Examples.sol_manager = "sol" /\
  WALLET_FILES !! "sol" = Some (wallet_file Examples.sol_manager) /\
  (is_Some (w3 Examples.sol_manager) <-> "sol" = "eth") /\
  (is_Some (sol_client Examples.sol_manager) <-> "sol" = "sol") /\
  fs (mkWorld ∅ 1 []) = fs Examples.empty_world.
Proof.
  apply (init_manager_invariant Examples.env_ok "sol" Examples.empty_world
           Examples.sol_manager (mkWorld ∅ 1 [])).
  reflexivity.
Defined.

(** The exceptions of [__init__].  For an unsupported network it is the
    [ValueError] of the guard, with nothing done.  For a supported one
    it is the [ConnectionError] that [__init__] raises when the check
    answers [False], or the error that building or asking the client
    raised, which is passed on as it is (a [SolanaRpcException] for a
    Solana endpoint that cannot be reached); in both cases after one
    interaction and with the files untouched.  The lookup in
    [WALLET_FILES] never fails. *)
Theorem init_errors E net w e w' :
  init E net w = (Raise e, w') ->
  (net <> "eth" /\ net <> "sol" /\
   e = Exn ValueError (msg_unsupported_network net) /\ w' = w) \/
  ((net = "eth" \/ net = "sol") /\
   w' = mkWorld (fs w) (S (clock w)) (stdout w) /\
   ((connection_check E net (clock w) = LibOk false /\ e = unreachable_error net) \/
    (exists err, connection_check E net (clock w) = LibErr err /\ e = of_lib err))).
Proof.
  destruct (String.eqb_spec net "eth") as [->|Heth].
  { rewrite init_eth. unfold connection_check, unreachable_error. simpl.
    destruct (w3_is_connected E (clock w)) as [[|]|err]; [discriminate| |];
      intros [= <- <-]; right; eauto 8. }
  destruct (String.eqb_spec net "sol") as [->|Hsol].
  { rewrite init_sol. unfold connection_check, unreachable_error. simpl.
    destruct (sol_is_connected E (clock w)) as [[|]|err]; [discriminate| |];
      intros [= <- <-]; right; eauto 8. }
  rewrite (init_unsupported E net w Heth Hsol). intros [= <- <-]. left. auto.
Qed.

Lemma init_errors_witness :
  ("sol" <> "eth" /\ "sol" <> "sol" /\
   of_lib (LibError SolanaRpcException "SolanaRpcException: connection refused")
     = Exn ValueError (msg_unsupported_network "sol") /\
   mkWorld ∅ 1 [] = Examples.empty_world) \/
  (("sol" = "eth" \/ "sol" = "sol") /\
   mkWorld ∅ 1 [] = mkWorld (fs Examples.empty_world) (S (clock Examples.empty_world))
                      (stdout Examples.empty_world) /\
   ((connection_check Examples.env_unreachable "sol" (clock Examples.empty_world)
       = LibOk false /\
     of_lib (LibError SolanaRpcException "SolanaRpcException: connection refused")
       = unreachable_error "sol") \/
    (exists err,
       connection_check Examples.env_unreachable "sol" (clock Examples.empty_world)
         = LibErr err /\
       of_lib (LibError SolanaRpcException "SolanaRpcException: connection refused")
         = of_lib err))).
Proof.
  apply (init_errors Examples.env_unreachable "sol" Examples.empty_world
           (of_lib (LibError SolanaRpcException "SolanaRpcException: connection refused"))
           (mkWorld ∅ 1 [])).
  reflexivity.
Defined.

(** ** The wallet file *)

(** A load raises exactly when the file exists but cannot be read for
    another reason than malformed JSON, and then it raises the error of
    the read: a [PermissionError] or a [UnicodeDecodeError] (a
    [ValueError], but no [JSONDecodeError]) is not turned into an empty
    collection. *)
Theorem load_raises_iff self w e :
  fst (_load_wallets self w) = Raise e <->
  exists err,
    fs w !! wallet_file self = Some (Unreadable err) /\
    issubclass (lib_cls err) JSONDecodeError = false /\
    e = of_lib err.
Proof.
  unfold _load_wallets, try_except, read_wallet_file.
  destruct (fs w !! wallet_file self) as [[ws| |err]|]; simpl.
  - split; [discriminate | intros (? & [=] & _)].
  - split; [discriminate | intros (? & [=] & _)].
  - rewrite orb_false_r.
    destruct (issubclass (lib_cls err) JSONDecodeError) eqn:Hc; simpl.
    + split; [discriminate|]. intros (err' & [= <-] & Hc' & _). congruence.
    + split.
      * intros [= <-]. exists err. auto.
      * intros (err' & [= <-] & _ & ->). reflexivity.
  - split; [discriminate | intros (? & [=] & _)].
Qed.

(** With a wallet file that cannot be read, [manage_wallets] fails with
    the error of the read before anything else is done: no key is
    generated, no endpoint is asked and no file is written. *)
Theorem manage_wallets_unreadable_file E self k ch w err :
  0 <= k -> ch = network self ->
  fs w !! wallet_file self = Some (Unreadable err) ->
  issubclass (lib_cls err) JSONDecodeError = false ->
  manage_wallets E self k ch w = (Raise (of_lib err), w).
Proof.
  intros Hk Hch Hfile Hcls.
  rewrite (manage_wallets_valid E self k ch Hk Hch).
  apply bind_of_raise.
  unfold _load_wallets, try_except, read_wallet_file.
  rewrite Hfile. simpl. rewrite Hcls. reflexivity.
Qed.

Lemma manage_wallets_unreadable_file_witness :
  manage_wallets Examples.env_ok Examples.eth_manager 2 "eth" Examples.locked_world =
    (Raise (of_lib (LibError PermissionError "Permission denied")), Examples.locked_world).
Proof.
  apply (manage_wallets_unreadable_file Examples.env_ok Examples.eth_manager 2 "eth"
           Examples.locked_world (LibError PermissionError "Permission denied")).
  - lia.
  - reflexivity.
  - reflexivity.
  - reflexivity.
Defined.

(** An [OSError] that leaves [_save_wallets] is of the class [OSError]
    itself, whatever subclass the write failed with (a
    [PermissionError] is re-raised as a plain [IOError]), and its text
    names the wallet file. *)
Theorem save_error_is_plain_ioerror E self ws w e w' :
  _save_wallets E self ws w = (Raise e, w') ->
  issubclass (exn_cls e) OSError = true ->
  exn_cls e = OSError /\
  exists cause, exn_msg e = msg_save_failed (wallet_file self) cause.
Proof.
  unfold _save_wallets, try_except, write_wallet_file, bind, tick. simpl.
  destruct (file_write E (clock w)) as [|err|err]; simpl; [discriminate| |];
    rewrite orb_false_r;
    destruct (issubclass (lib_cls err) OSError) eqn:Hc; intros [= <- _]; simpl;
    try (intros _; split; [reflexivity | eexists; reflexivity]);
    rewrite Hc; discriminate.
Qed.

Lemma save_error_is_plain_ioerror_witness :
  exn_cls (Exn OSError (msg_save_failed "eth_wallets.json" (msg_lib "Permission denied")))
    = OSError /\
  exists cause,
    exn_msg (Exn OSError (msg_save_failed "eth_wallets.json" (msg_lib "Permission denied")))
      = msg_save_failed (wallet_file Examples.eth_manager) cause.
Proof.
  apply (save_error_is_plain_ioerror Examples.env_read_only Examples.eth_manager []
           Examples.empty_world _ (mkWorld ∅ 1 [])).
  - reflexivity.
  - reflexivity.
Defined.

(** Round trip: after a save that returns, a load returns the saved
    records in their order and prints no warning, whatever the file
    was before (missing, malformed or unreadable). *)
Theorem save_then_load E self ws w w' :
  _save_wallets E self ws w = (Ret tt, w') ->
  _load_wallets self w' = (Ret ws, w').
Proof.
  intros H. apply save_ret in H. destruct H as (_ & Hfs & _).
  apply load_after_store. rewrite Hfs. apply lookup_insert_eq.
Qed.

Lemma save_then_load_witness :
  _load_wallets Examples.eth_manager
    (mkWorld (<["eth_wallets.json" := Stored [Examples.sol_a]]> ∅) 1 []) =
    (Ret [Examples.sol_a],
     mkWorld (<["eth_wallets.json" := Stored [Examples.sol_a]]> ∅) 1 []).
Proof.
  apply (save_then_load Examples.env_ok Examples.eth_manager [Examples.sol_a]
           Examples.corrupt_world).
  vm_compute. reflexivity.
Defined.

(** How a save leaves the files. *)
Lemma save_fs E self ws w r w' :
  _save_wallets E self ws w = (r, w') ->
  (r = Ret tt /\ fs w' = <[wallet_file self := Stored ws]> (fs w)) \/
  ((exists e, r = Raise e) /\ fs w' = fs w) \/
  ((exists e, r = Raise e) /\ fs w' = <[wallet_file self := Corrupt]> (fs w) /\
   exists err, file_write E (clock w) = WriteFailPartial err).
Proof.
  unfold _save_wallets, try_except, write_wallet_file, bind, tick. simpl.
  destruct (file_write E (clock w)) as [|err|err]; simpl.
  - intros [= <- <-]. left. auto.
  - destruct (issubclass (lib_cls err) OSError || false); intros [= <- <-];
      right; left; eauto.
  - destruct (issubclass (lib_cls err) OSError || false); intros [= <- <-];
      right; right; simpl; eauto.
Qed.

(** ** Generation: what reaches the file *)

(** How a call of [create_wallets] that raises leaves the world:
    either a guard refused the call, or the failure came after the
    guards, from a collaborator or from the save. *)
Lemma create_wallets_raise_inv E self n ch w e w' :
  create_wallets E self n ch w = (Raise e, w') ->
  (w' = w /\ exn_cls e = ValueError /\
   ((exn_msg e = msg_negative_count /\ n < 0) \/
    (exn_msg e = msg_chain_not_supported /\ in_list ch ["eth"; "sol"] = false) \/
    (exn_msg e = msg_network_mismatch (network self) ch /\ ch <> network self))) \/
  (0 <= n /\ in_list ch ["eth"; "sol"] = true /\ ch = network self /\
   foreign_message (exn_msg e) /\
   (fs w' = fs w \/
    (fs w' = <[wallet_file self := Corrupt]> (fs w) /\
     exists t err, file_write E t = WriteFailPartial err))).
Proof.
  unfold create_wallets.
  destruct (Z.ltb_spec n 0) as [Hn|Hn].
  { intros [= <- <-]. left. simpl. auto. }
  destruct (in_list ch ["eth"; "sol"]) eqn:Hin; simpl.
  2:{ intros [= <- <-]. left. simpl. auto 6. }
  destruct (String.eqb_spec ch (network self)) as [Hch|Hch]; simpl.
  2:{ intros [= <- <-]. left. simpl. auto 6. }
  intros H. right.
  pose proof (create_wallets_body_raise _ _ _ _ _ _ _ H) as Hmsg.
  repeat (split; [first [assumption | reflexivity]|]).
  apply bind_raise_inv in H. destruct H as [H | (old & w0 & Hload & H)].
  { left. apply load_frame in H. tauto. }
  apply load_frame in Hload. destruct Hload as [Hfs0 _].
  apply bind_raise_inv in H. destruct H as [H | (new & w1 & Hloop & H)].
  { left. apply create_loop_frame in H. destruct H as [-> _]. exact Hfs0. }
  apply create_loop_frame in Hloop. destruct Hloop as [Hfs1 _].
  apply bind_raise_inv in H. destruct H as [H | ([] & w2 & _ & H)]; [|discriminate H].
  apply save_fs in H. destruct H as [[[=] _] | [[_ Hfs] | (_ & Hfs & err & Herr)]].
  - left. congruence.
  - right. split; [congruence | eauto].
Qed.

Lemma create_wallets_fs E self n ch w r w' :
  create_wallets E self n ch w = (r, w') ->
  match r with
  | Ret new_wallets =>
      fs w' = <[wallet_file self := Stored (stored self w ++ new_wallets)]> (fs w)
  | Raise e =>
      fs w' = fs w \/
      (fs w' = <[wallet_file self := Corrupt]> (fs w) /\
       exists t err, file_write E t = WriteFailPartial err)
  end.
Proof.
  destruct r as [new|e]; intros Hrun.
  - apply create_wallets_ret_inv in Hrun.
    destruct Hrun as (_ & _ & _ & w0 & w1 & Hload & Hloop & Hsave).
    apply load_frame in Hload. destruct Hload as [Hfs0 _].
    apply create_loop_frame in Hloop. destruct Hloop as [Hfs1 _].
    apply save_ret in Hsave. destruct Hsave as (_ & Hfs & _).
    congruence.
  - apply create_wallets_raise_inv in Hrun.
    destruct Hrun as [(-> & _) | (_ & _ & _ & _ & H)]; [left; reflexivity | exact H].
Qed.

(** A batch is persisted as a whole or not at all.  When
    [create_wallets] returns, the file holds the previous collection
    followed by all the new records.  When it raises, the file is as it
    was - the records generated before the failure are dropped - unless
    the write itself was interrupted after it had truncated the file. *)
Theorem create_wallets_all_or_nothing E self n ch w :
  match create_wallets E self n ch w with
  | (Ret new_wallets, w') =>
      fs w' = <[wallet_file self := Stored (stored self w ++ new_wallets)]> (fs w)
  | (Raise e, w') =>
      fs w' = fs w \/
      (fs w' = <[wallet_file self := Corrupt]> (fs w) /\
       exists t err, file_write E t = WriteFailPartial err)
  end.
Proof.
  destruct (create_wallets E self n ch w) as [r w'] eqn:Hrun.
  apply create_wallets_fs in Hrun. destruct r; exact Hrun.
Qed.

(** How a call of [manage_wallets] leaves the files, whatever its outcome. *)
Lemma manage_wallets_fs E self k ch w r w' :
  manage_wallets E self k ch w = (r, w') ->
  fs w' = fs w \/
  (exists new, fs w' = <[wallet_file self := Stored (stored self w ++ new)]> (fs w)) \/
  (fs w' = <[wallet_file self := Corrupt]> (fs w) /\
   exists t err, file_write E t = WriteFailPartial err).
Proof.
  unfold manage_wallets.
  destruct (Z.ltb_spec k 0) as [Hk|Hk]; [intros [= _ <-]; auto|].
  destruct (String.eqb_spec ch (network self)) as [Hch|Hch]; simpl;
    [|intros [= _ <-]; auto].
  unfold bind at 1.
  destruct (_load_wallets self w) as [[wallets|e] w0] eqn:Hload.
  2:{ intros [= _ <-]. apply load_frame in Hload. left. tauto. }
  pose proof (load_ret _ _ _ _ Hload) as ->.
  apply load_frame in Hload. destruct Hload as [Hfs0 _].
  destruct (Z.leb_spec k (Z.of_nat (length (stored self w)))) as [_|_].
  { intros [= _ <-]. auto. }
  unfold bind.
  destruct (create_wallets E self (k - Z.of_nat (length (stored self w))) ch w0)
    as [[new|e] w1] eqn:Hrun; apply create_wallets_fs in Hrun; rename Hrun into Hall;
    intros [= _ <-].
  - right. left. exists new.
    rewrite Hall, (stored_same_fs self w w0 Hfs0), Hfs0. reflexivity.
  - destruct Hall as [Hall | [Hall Hpart]].
    + left. congruence.
    + right. right. split; [congruence | exact Hpart].
Qed.

(** [manage_wallets] for one chain never touches the wallet file of the
    other chain, whatever its outcome. *)
Theorem manage_wallets_leaves_other_chain E self other k ch w :
  constructed self -> constructed other -> network other <> network self ->
  fs (snd (manage_wallets E self k ch w)) !! wallet_file other
    = fs w !! wallet_file other.
Proof.
  intros Hs Ho Hne.
  assert (Hfiles : wallet_file self <> wallet_file other).
  { destruct (constructed_inv _ Hs) as [-> | ->];
      destruct (constructed_inv _ Ho) as [-> | ->]; simpl in *; congruence. }
  destruct (manage_wallets E self k ch w) as [r w'] eqn:Hrun. simpl.
  apply manage_wallets_fs in Hrun.
  destruct Hrun as [-> | [[new ->] | [-> _]]];
    [reflexivity | | ]; apply lookup_insert_ne; exact Hfiles.
Qed.

Lemma manage_wallets_leaves_other_chain_witness :
  fs (snd (manage_wallets Examples.env_ok Examples.eth_manager 2 "eth"
             Examples.two_sol_world)) !! wallet_file Examples.sol_manager
    = fs Examples.two_sol_world !! wallet_file Examples.sol_manager.
Proof.
  apply (manage_wallets_leaves_other_chain Examples.env_ok Examples.eth_manager
           Examples.sol_manager 2 "eth" Examples.two_sol_world).
  - exact eth_manager_constructed.
  - exact sol_manager_constructed.
  - discriminate.
Defined.

(** ** Generation: what a batch holds *)

Lemma new_wallet_generated E self ch w x w' :
  new_wallet E self ch w = (Ret x, w') -> generated_at E ch (clock w) x.
Proof.
  unfold new_wallet, generated_at, keygen, stamp_at, chain_tag.
  destruct (String.eqb ch "eth").
  - run_monad. destruct (w3 self); simpl; [|discriminate].
    destruct (w3_latest_timestamp E (S (clock w))) eqn:Hts; simpl; intros [= <- _].
    simpl. auto.
  - run_monad. destruct (sol_client self); simpl; [|discriminate].
    destruct (sol_get_block_height E (S (clock w))) as [[v|[i|e]]|e] eqn:Hh; simpl;
      intros [= <- _]; simpl; auto.
Qed.

Lemma create_loop_generated E self ch n : forall acc w new w',
  create_loop E self n ch acc w = (Ret new, w') ->
  forall i x, new !! (length acc + i)%nat = Some x ->
              generated_at E ch (clock w + 2 * i) x.
Proof.
  induction n as [|n IH]; intros acc w new w'; simpl.
  - intros [= <- _] i x Hx.
    apply lookup_lt_Some in Hx. lia.
  - unfold bind at 1.
    destruct (new_wallet E self ch w) as [[x0|e] w1] eqn:Hx0; [|discriminate].
    intros Hloop i x Hx.
    pose proof (create_loop_ret _ _ _ _ _ _ _ _ Hloop) as (added & -> & _).
    destruct i as [|j].
    + rewrite Nat.add_0_r in Hx.
      rewrite <- app_assoc in Hx. cbn [app] in Hx.
      rewrite list_lookup_middle in Hx by reflexivity.
      injection Hx as <-.
      match goal with
      | |- generated_at _ _ ?t _ => replace t with (clock w) by lia
      end.
      eapply new_wallet_generated. exact Hx0.
    + apply new_wallet_ret in Hx0 as Hclk. destruct Hclk as [_ Hclk].
      match goal with
      | |- generated_at _ _ ?t _ => replace t with (clock w1 + 2 * j)%nat by lia
      end.
      apply (IH _ _ _ _ Hloop).
      rewrite length_app. simpl.
      replace (length acc + 1 + j)%nat with (length acc + S j)%nat by lia.
      exact Hx.
Qed.

Lemma create_wallets_generated E self n ch w new w' :
  create_wallets E self n ch w = (Ret new, w') ->
  clock w' = (clock w + 2 * Z.to_nat n + 1)%nat /\
  forall i x, new !! i = Some x -> generated_at E ch (clock w + 2 * i) x.
Proof.
  intros H. apply create_wallets_ret_inv in H.
  destruct H as (_ & _ & _ & w0 & w1 & Hload & Hloop & Hsave).
  apply load_frame in Hload. destruct Hload as [_ Hc0].
  apply save_ret in Hsave. destruct Hsave as (_ & _ & Hc2).
  split.
  - apply create_loop_ret in Hloop. destruct Hloop as (_ & _ & _ & _ & Hc1). lia.
  - intros i x Hx. rewrite <- Hc0.
    apply (create_loop_generated _ _ _ _ _ _ _ _ Hloop i x). exact Hx.
Qed.

(** Every wallet of a batch comes from a generator call of its own: the
    wallet at position [i] has the address and key of the [i]-th call
    of the chain's generator, and its [created_at] is what the endpoint
    answered to the query that followed that call.  A batch of [n]
    makes [2 n + 1] interactions, the last one being the write. *)
Theorem create_wallets_batch E self n ch w new w' :
  create_wallets E self n ch w = (Ret new, w') ->
  clock w' = (clock w + 2 * Z.to_nat n + 1)%nat /\
  forall i x, new !! i = Some x -> generated_at E ch (clock w + 2 * i) x.
Proof. apply create_wallets_generated. Qed.

Lemma create_wallets_batch_witness :
  clock Examples.three_sol_world
    = (clock Examples.two_sol_world + 2 * Z.to_nat 1 + 1)%nat /\
  forall i x, [Examples.sol_h] !! i = Some x ->
              generated_at Examples.env_ok "sol" (clock Examples.two_sol_world + 2 * i) x.
Proof.
  apply (create_wallets_batch Examples.env_ok Examples.sol_manager 1 "sol"
           Examples.two_sol_world [Examples.sol_h] Examples.three_sol_world).
  vm_compute. reflexivity.
Defined.

(** No two wallets of a batch have the same address, as long as the
    generator of the chain never gives an address twice. *)
Theorem create_wallets_distinct_addresses E self n ch w new w' :
  fresh_addresses E ch ->
  create_wallets E self n ch w = (Ret new, w') ->
  NoDup (map address new).
Proof.
  intros Hfresh Hrun. apply create_wallets_generated in Hrun. destruct Hrun as [_ Hgen].
  apply NoDup_alt. intros i j a Hi Hj.
  change (map address new) with (address <$> new) in Hi, Hj.
  rewrite list_lookup_fmap in Hi, Hj.
  destruct (new !! i) as [x|] eqn:Hxi; [|discriminate].
  destruct (new !! j) as [y|] eqn:Hxj; [|discriminate].
  simpl in Hi, Hj. injection Hi as Hi. injection Hj as Hj.
  destruct (Hgen i x Hxi) as (_ & Hax & _).
  destruct (Hgen j y Hxj) as (_ & Hay & _).
  assert (Heq : (clock w + 2 * i)%nat = (clock w + 2 * j)%nat).
  { apply Hfresh. congruence. }
  lia.
Qed.

Lemma tally_injective t t' : Examples.tally t = Examples.tally t' -> t = t'.
Proof.
  revert t'. induction t as [|t IH]; intros [|t']; simpl; try discriminate.
  - reflexivity.
  - intros [= H]. f_equal. apply IH. exact H.
Qed.

Lemma create_wallets_distinct_addresses_witness :
  NoDup (map address Examples.tally_batch).
Proof.
  apply (create_wallets_distinct_addresses Examples.env_tally Examples.eth_manager 2 "eth"
           Examples.empty_world Examples.tally_batch
           (mkWorld (<["eth_wallets.json" := Stored Examples.tally_batch]> ∅) 5 [])).
  - intros t t' H. apply tally_injective. exact H.
  - vm_compute. reflexivity.
Defined.

(** ** Balance queries *)

Lemma query_balance_frame E self addr ch w r w1 :
  query_balance E self addr ch w = (r, w1) ->
  fs w1 = fs w /\ (clock w1 = clock w \/ clock w1 = S (clock w)) /\
  stdout w1 = stdout w.
Proof.
  unfold query_balance.
  destruct (String.eqb ch "eth").
  - run_monad. destruct (w3 self); simpl; [|intros [= _ <-]; auto].
    destruct (w3_get_balance E (clock w) addr) as [wei|e]; simpl;
      [|intros [= _ <-]; auto].
    destruct (w3_from_wei_ether E wei); simpl; intros [= _ <-]; auto.
  - destruct (String.eqb ch "sol"); [|intros [= _ <-]; auto].
    run_monad. destruct (pubkey_from_string E addr) as [pk|e]; simpl;
      [|intros [= _ <-]; auto].
    destruct (sol_client self); simpl; [|intros [= _ <-]; auto].
    destruct (sol_get_balance E (clock w) pk) as [[v|i]|e]; simpl;
      try (intros [= _ <-]; auto).
    unfold float_of_int.
    destruct (binary_normalize 53 1024 v 0 false); simpl; intros [= _ <-]; auto.
Qed.

Lemma get_balance_fs E self addr ch w r w' :
  get_balance E self addr ch w = (r, w') -> fs w' = fs w.
Proof.
  unfold get_balance, try_except.
  destruct (query_balance E self addr ch w) as [[f|e] w1] eqn:Hrun;
    apply query_balance_frame in Hrun; destruct Hrun as (Hfs & _ & _).
  - intros [= _ <-]. exact Hfs.
  - destruct (existsb (issubclass (exn_cls e)) [Web3Exception; ValueError]);
      intros [= _ <-]; exact Hfs.
Qed.

(** A balance query changes no file, asks the endpoint at most once
    and prints at most one line, whatever its outcome. *)
Theorem get_balance_frame E self addr ch w :
  let w' := snd (get_balance E self addr ch w) in
  fs w' = fs w /\
  (clock w' = clock w \/ clock w' = S (clock w)) /\
  (stdout w' = stdout w \/ exists cause, stdout w' = stdout w ++ [warn_balance addr cause]).
Proof.
  unfold get_balance, try_except. simpl.
  destruct (query_balance E self addr ch w) as [[f|e] w1] eqn:Hrun;
    apply query_balance_frame in Hrun; destruct Hrun as (Hfs & Hclk & Hout); simpl.
  - auto.
  - destruct (issubclass (exn_cls e) Web3Exception
              || (issubclass (exn_cls e) ValueError || false)); simpl.
    + rewrite Hout. eauto.
    + auto.
Qed.

(** A manager answers for its own chain only.  Asked for the other
    chain, a constructed manager raises [AttributeError], because the
    client of that chain was never created: at once for ['eth'], and
    for ['sol'] once the address has been parsed. *)
Theorem get_balance_other_chain E self addr ch w :
  constructed self ->
  ch = "eth" \/ ch = "sol" -> ch <> network self ->
  (ch = "sol" -> exists pubkey, pubkey_from_string E addr = LibOk pubkey) ->
  get_balance E self addr ch w =
    (Raise (Exn AttributeError
              (msg_no_attribute (if String.eqb ch "eth" then "w3" else "sol_client"))),
     w).
Proof.
  intros Hc Hsup Hne Hpk.
  destruct (constructed_inv _ Hc) as [-> | ->]; simpl in Hne;
    destruct Hsup as [-> | ->]; try contradiction.
  - destruct (Hpk eq_refl) as [pubkey Hparse].
    unfold get_balance, try_except, query_balance. simpl.
    run_monad. rewrite Hparse. reflexivity.
  - reflexivity.
Qed.

Lemma get_balance_other_chain_witness :
  get_balance Examples.env_ok Examples.eth_manager Examples.system_address "sol"
    Examples.empty_world =
    (Raise (Exn AttributeError
              (msg_no_attribute (if String.eqb "sol" "eth" then "w3" else "sol_client"))),
     Examples.empty_world).
Proof.
  apply (get_balance_other_chain Examples.env_ok Examples.eth_manager
           Examples.system_address "sol" Examples.empty_world).
  - exact eth_manager_constructed.
  - right. reflexivity.
  - discriminate.
  - intros _. exists Examples.system_address. reflexivity.
Defined.

(** An account that holds nothing and a query that fails give the same
    value [0.0]; only the warning line tells them apart.  Here the
    Solana endpoint answers with zero lamports: the result is [0.0] and
    nothing is printed. *)
Theorem get_balance_zero_lamports E self addr w endpoint pubkey :
  sol_client self = Some endpoint ->
  pubkey_from_string E addr = LibOk pubkey ->
  sol_get_balance E (clock w) pubkey = LibOk (RespValue 0) ->
  get_balance E self addr "sol" w =
    (Ret float_zero, mkWorld (fs w) (S (clock w)) (stdout w)).
Proof.
  intros Hclient Hpk Hrpc. unfold get_balance, try_except, query_balance. simpl.
  run_monad. rewrite Hpk. simpl. rewrite Hclient. simpl. rewrite Hrpc. reflexivity.
Qed.

Lemma get_balance_zero_lamports_witness :
  get_balance Examples.env_empty_account Examples.sol_manager Examples.system_address "sol"
    Examples.two_sol_world =
    (Ret float_zero,
     mkWorld (fs Examples.two_sol_world) (S (clock Examples.two_sol_world))
       (stdout Examples.two_sol_world)).
Proof.
  apply (get_balance_zero_lamports Examples.env_empty_account Examples.sol_manager
           Examples.system_address Examples.two_sol_world "SOL_RPC_API"
           Examples.system_address).
  - reflexivity.
  - reflexivity.
  - reflexivity.
Defined.

Lemma get_balance_malformed_sol_address_witness :
  fst (get_balance Examples.env_ok Examples.eth_manager "" "sol" Examples.empty_world)
    = Ret float_zero.
Proof.
  apply (get_balance_malformed_sol_address Examples.env_ok Examples.eth_manager ""
           Examples.empty_world (LibError ValueError "invalid pubkey")).
  - reflexivity.
  - reflexivity.
Defined.

Lemma get_balance_eth_rpc_error_witness :
  fst (get_balance Examples.env_offline Examples.eth_manager Examples.zero_address "eth"
         Examples.empty_world) =
    if issubclass (lib_cls (LibError RequestsConnectionError "connection refused"))
         Web3Exception
       || issubclass (lib_cls (LibError RequestsConnectionError "connection refused"))
            ValueError
    then Ret float_zero
    else Raise (of_lib (LibError RequestsConnectionError "connection refused")).
Proof.
  apply (get_balance_eth_rpc_error Examples.env_offline Examples.eth_manager
           Examples.zero_address Examples.empty_world "ETH_RPC_API"
           (LibError RequestsConnectionError "connection refused")).
  - reflexivity.
  - reflexivity.
Defined.

(** ** Topping up: refusals and results *)

(** [manage_wallets] refuses a call with one of its own two
    [ValueError]s exactly when the request is negative or the chain is
    not the manager's, and then nothing has happened.  It does not
    check by itself that the chain is supported. *)
Theorem manage_wallets_guards E self k ch w :
  ((exists e, fst (manage_wallets E self k ch w) = Raise e /\
              exn_cls e = ValueError /\
              (exn_msg e = msg_negative_request \/
               exn_msg e = msg_network_mismatch (network self) ch))
   <-> (k < 0 \/ ch <> network self)) /\
  (k < 0 \/ ch <> network self -> snd (manage_wallets E self k ch w) = w).
Proof.
  unfold manage_wallets.
  destruct (Z.ltb_spec k 0) as [Hk|Hk].
  { simpl. split; [split|]; auto.
    intros _. eexists. split; [reflexivity|]. simpl. auto. }
  destruct (String.eqb_spec ch (network self)) as [Hch|Hch]; simpl.
  2:{ split; [split|]; auto.
      intros _. eexists. split; [reflexivity|]. simpl. auto. }
  assert (Hok : ~ (k < 0 \/ ch <> network self)) by (intros [?|?]; [lia | contradiction]).
  split; [split|]; [|tauto|tauto].
  intros (e & Hraise & _ & Hmsg). exfalso.
  match type of Hraise with fst (?c w) = _ => destruct (c w) as [r w'] eqn:Hrun end.
  simpl in Hraise. subst r.
  apply bind_raise_inv in Hrun. destruct Hrun as [H | (wallets & w0 & _ & H)].
  { apply load_raise in H. destruct Hmsg as [Hm | Hm]; rewrite Hm in H; exact H. }
  destruct (k <=? Z.of_nat (length wallets)); [discriminate H|].
  apply bind_raise_inv in H. destruct H as [H | (new & w1 & _ & H)]; [|discriminate H].
  apply create_wallets_raise_inv in H.
  destruct H as [(_ & _ & [[Hm _] | [[Hm _] | [_ Hne]]]) | (_ & _ & _ & Hf & _)].
  - destruct Hmsg as [Hm' | Hm']; congruence.
  - destruct Hmsg as [Hm' | Hm']; congruence.
  - contradiction.
  - destruct Hmsg as [Hm | Hm]; rewrite Hm in Hf; exact Hf.
Qed.

(** A call of [manage_wallets] that returns gives exactly the requested
    number of records: the first ones of the file as the call leaves it. *)
Theorem manage_wallets_returns_requested E self k ch w r w' :
  manage_wallets E self k ch w = (Ret r, w') ->
  Z.of_nat (length r) = k /\
  r = firstn (Z.to_nat k) (stored self w') /\
  fst (_load_wallets self w') = Ret (stored self w').
Proof.
  intros H. apply manage_wallets_ret_inv in H.
  destruct H as (Hk & _ & _ & Hl & _ & Hlen & Hr).
  split; [|split; assumption].
  rewrite Hr, length_firstn. lia.
Qed.

Lemma manage_wallets_returns_requested_witness :
  Z.of_nat (length [Examples.sol_a; Examples.sol_b; Examples.sol_h]) = 3 /\
  [Examples.sol_a; Examples.sol_b; Examples.sol_h]
    = firstn (Z.to_nat 3) (stored Examples.sol_manager Examples.three_sol_world) /\
  fst (_load_wallets Examples.sol_manager Examples.three_sol_world)
    = Ret (stored Examples.sol_manager Examples.three_sol_world).
Proof.
  apply (manage_wallets_returns_requested Examples.env_ok Examples.sol_manager 3 "sol"
           Examples.two_sol_world).
  vm_compute. reflexivity.
Defined.

(** Without an interrupted write, a call of [manage_wallets] - returning
    or raising - only ever appends to the collection of any manager. *)
Lemma manage_wallets_appends E mgr k ch w r w' :
  (forall t err, file_write E t <> WriteFailPartial err) ->
  manage_wallets E mgr k ch w = (r, w') ->
  forall self, exists extra, stored self w' = stored self w ++ extra.
Proof.
  intros Hsafe Hrun self. apply manage_wallets_fs in Hrun.
  destruct Hrun as [Hfs | [[new Hfs] | [_ (t & err & Herr)]]].
  - exists []. rewrite app_nil_r. apply stored_same_fs. exact Hfs.
  - unfold stored. rewrite Hfs.
    destruct (decide (wallet_file mgr = wallet_file self)) as [Heq|Hne].
    + rewrite Heq, lookup_insert_eq. exists new.
      unfold stored. rewrite Heq. reflexivity.
    + rewrite lookup_insert_ne by exact Hne. exists []. rewrite app_nil_r. reflexivity.
  - exfalso. exact (Hsafe t err Herr).
Qed.

(** ** The driver *)

Lemma pbind_inv {A B} (c : Prog A) (k : A -> Prog B) s r s' :
  pbind c k s = (r, s') ->
  (exists e, c s = (Failed e, s') /\ r = Failed e) \/
  (exists a s1, c s = (Done a, s1) /\ k a s1 = (r, s')).
Proof.
  unfold pbind. destruct (c s) as [[a|e] s1]; intros H.
  - right. exists a, s1. auto.
  - left. exists e. injection H as <- <-. auto.
Qed.

Lemma call_inv {A} (c : M A) s r s' :
  call c s = (r, s') ->
  exists r0, c (world s) = (r0, world s') /\
             r = match r0 with Ret a => Done a | Raise e => Failed (propagated e) end.
Proof.
  unfold call. destruct (c (world s)) as [r0 w']. intros [= <- <-].
  exists r0. split; reflexivity.
Qed.

Lemma say_world l s r s' : say l s = (r, s') -> world s' = world s.
Proof. unfold say. intros [= _ <-]. reflexivity. Qed.

Lemma report_wallets_fs E mgr ch wallets : forall idx s r s',
  report_wallets E mgr ch idx wallets s = (r, s') ->
  fs (world s') = fs (world s).
Proof.
  induction wallets as [|x rest IH]; intros idx s r s'; simpl.
  - intros [= _ <-]. reflexivity.
  - intros H. apply pbind_inv in H.
    assert (Hone : forall r1 s1, report_wallet E mgr ch idx x s = (r1, s1) ->
              fs (world s1) = fs (world s)).
    { intros r1 s1 H1. unfold report_wallet in H1.
      apply pbind_inv in H1. destruct H1 as [(e & Hc & _) | (b & s2 & Hc & H1)];
        apply call_inv in Hc; destruct Hc as (r0 & Hc & _); apply get_balance_fs in Hc.
      - exact Hc.
      - unfold pbind, say in H1. simpl in H1. injection H1 as _ <-. simpl. exact Hc. }
    destruct H as [(e & H & _) | ([] & s1 & H & Hrest)].
    + eapply Hone. exact H.
    + apply IH in Hrest. rewrite Hrest. eapply Hone. exact H.
Qed.

(** [main] lets no exception out (of those derived from [Exception]):
    whatever the two input lines and whatever the collaborators do, it
    returns, after printing one error line if something was raised. *)
Theorem main_never_raises E int_of_str chain_input count_input s :
  exists s', main E int_of_str chain_input count_input s = (Done tt, s').
Proof.
  unfold main.
  destruct (main_try E int_of_str chain_input count_input s) as [[[]|e] s1].
  - eauto.
  - destruct (issubclass (main_exn_cls e) ValueError); [unfold say; eauto|].
    destruct (issubclass (main_exn_cls e) ConnectionError); [unfold say; eauto|].
    rewrite issubclass_Exception. unfold say. eauto.
Qed.

(** A first line that is, in lower case, neither ['eth'] nor ['sol']
    ends the run at once with an input error: no connection is made,
    the count is never asked for, and the world is untouched. *)
Theorem main_rejects_chain E int_of_str chain_input count_input s :
  lower chain_input <> "eth" -> lower chain_input <> "sol" ->
  main E int_of_str chain_input count_input s =
    (Done tt,
     mkConsole (world s) (screen s ++ [prompt_chain; say_input_error bad_chain_input])).
Proof.
  intros Heth Hsol.
  assert (Hin : in_list (lower chain_input) ["eth"; "sol"] = false)
    by (apply in_list_supported; auto).
  unfold main, main_try. rewrite Hin.
  unfold pbind, say, pfail. simpl.
  rewrite <- app_assoc. reflexivity.
Qed.

Lemma main_rejects_chain_witness :
  main Examples.env_ok Examples.int_of_sample "Bitcoin" "3" Examples.empty_console =
    (Done tt,
     mkConsole (world Examples.empty_console)
       (screen Examples.empty_console ++ [prompt_chain; say_input_error bad_chain_input])).
Proof.
  apply (main_rejects_chain Examples.env_ok Examples.int_of_sample "Bitcoin" "3"
           Examples.empty_console).
  - discriminate.
  - discriminate.
Defined.

Lemma lift_lib_world {A} (x : lib_result A) w r w' :
  lift_lib x w = (r, w') -> w' = w.
Proof. destruct x; simpl; intros [= _ <-]; reflexivity. Qed.

(** The files after the body of [main]: as they were, or as a call of
    [manage_wallets] on the same files left them. *)
Lemma main_try_fs E int_of_str chain_input count_input s r s' :
  main_try E int_of_str chain_input count_input s = (r, s') ->
  fs (world s') = fs (world s) \/
  exists mgr k ch w1 r1 w2,
    fs w1 = fs (world s) /\ manage_wallets E mgr k ch w1 = (r1, w2) /\
    fs (world s') = fs w2.
Proof.
  unfold main_try. intros H.
  apply pbind_inv in H. destruct H as [(e & H & _) | ([] & s1 & Hs1 & H)].
  { unfold say in H. discriminate H. }
  apply say_world in Hs1.
  destruct (negb (in_list (lower chain_input) ["eth"; "sol"])).
  { unfold pfail in H. injection H as _ <-. left. rewrite Hs1. reflexivity. }
  apply pbind_inv in H. destruct H as [(e & H & _) | (mgr & s2 & Hs2 & H)].
  { apply call_inv in H. destruct H as (r0 & H & _). apply init_frame in H.
    left. rewrite <- Hs1. tauto. }
  apply call_inv in Hs2. destruct Hs2 as (r0 & Hs2 & _). apply init_frame in Hs2.
  destruct Hs2 as [Hs2 _].
  apply pbind_inv in H. destruct H as [(e & H & _) | ([] & s3 & Hs3 & H)].
  { unfold say in H. discriminate H. }
  apply say_world in Hs3.
  apply pbind_inv in H. destruct H as [(e & H & _) | (k & s4 & Hs4 & H)].
  { apply call_inv in H. destruct H as (r1 & H & _). apply lift_lib_world in H.
    left. rewrite H, Hs3, Hs2, Hs1. reflexivity. }
  apply call_inv in Hs4. destruct Hs4 as (r1 & Hs4 & _). apply lift_lib_world in Hs4.
  assert (Hfs4 : fs (world s4) = fs (world s))
    by (rewrite Hs4, Hs3, Hs2, Hs1; reflexivity).
  right. exists mgr, k, (lower chain_input), (world s4).
  apply pbind_inv in H. destruct H as [(e & H & _) | (wallets & s5 & Hs5 & H)].
  { apply call_inv in H. destruct H as (r2 & H & _). eauto. }
  apply call_inv in Hs5. destruct Hs5 as (r2 & Hs5 & _).
  exists r2, (world s5). split; [exact Hfs4|]. split; [exact Hs5|].
  apply pbind_inv in H. destruct H as [(e & H & _) | ([] & s6 & Hs6 & H)].
  { unfold say in H. discriminate H. }
  apply say_world in Hs6. apply report_wallets_fs in H.
  rewrite H, Hs6. reflexivity.
Qed.

Lemma main_world E int_of_str chain_input count_input s :
  exists r s1,
    main_try E int_of_str chain_input count_input s = (r, s1) /\
    world (snd (main E int_of_str chain_input count_input s)) = world s1.
Proof.
  unfold main.
  destruct (main_try E int_of_str chain_input count_input s) as [[a|e] s1].
  - exists (Done a), s1. auto.
  - exists (Failed e), s1. split; [reflexivity|].
    destruct (issubclass (main_exn_cls e) ValueError); [reflexivity|].
    destruct (issubclass (main_exn_cls e) ConnectionError); [reflexivity|].
    destruct (issubclass (main_exn_cls e) Exception); reflexivity.
Qed.

(** A run of [main] never removes a record from a wallet file: unless a
    write is interrupted after the file was truncated, every collection
    is after the run what it was before, followed by what was added. *)
Theorem main_keeps_records E int_of_str chain_input count_input s self :
  (forall t err, file_write E t <> WriteFailPartial err) ->
  exists extra,
    stored self (world (snd (main E int_of_str chain_input count_input s)))
      = stored self (world s) ++ extra.
Proof.
  intros Hsafe.
  destruct (main_world E int_of_str chain_input count_input s) as (r & s1 & Htry & ->).
  apply main_try_fs in Htry.
  destruct Htry as [Hfs | (mgr & k & ch & w1 & r1 & w2 & Hfs1 & Hrun & Hfs2)].
  - exists []. rewrite app_nil_r. apply stored_same_fs. exact Hfs.
  - destruct (manage_wallets_appends E mgr k ch w1 r1 w2 Hsafe Hrun self) as [extra Hext].
    exists extra.
    rewrite (stored_same_fs self w2 (world s1) Hfs2), Hext.
    rewrite (stored_same_fs self (world s) w1 Hfs1). reflexivity.
Qed.

Lemma main_keeps_records_witness :
  exists extra,
    stored Examples.sol_manager
      (world (snd (main Examples.env_ok Examples.int_of_sample "SOL" "3"
                     (mkConsole Examples.two_sol_world []))))
      = stored Examples.sol_manager (world (mkConsole Examples.two_sol_world [])) ++ extra.
Proof.
  apply (main_keeps_records Examples.env_ok Examples.int_of_sample "SOL" "3"
           (mkConsole Examples.two_sol_world []) Examples.sol_manager).
  intros t err. discriminate.
Defined.

(** A count that is not a number, or is negative, ends the run with an
    error line: no key is generated, no file is written, nothing is
    printed by the manager, and the only interaction is the connection
    check of the constructor. *)
Theorem main_rejects_count E int_of_str chain_input count_input s :
  lower chain_input = "eth" \/ lower chain_input = "sol" ->
  (exists err, int_of_str count_input = LibErr err) \/
  (exists k, int_of_str count_input = LibOk k /\ k < 0) ->
  let s' := snd (main E int_of_str chain_input count_input s) in
  fs (world s') = fs (world s) /\
  clock (world s') = S (clock (world s)) /\
  stdout (world s') = stdout (world s).
Proof.
  intros Hsup Hbad.
  assert (Hin : in_list (lower chain_input) ["eth"; "sol"] = true)
    by (destruct Hsup as [-> | ->]; reflexivity).
  destruct (main_world E int_of_str chain_input count_input s) as (r & s1 & Htry & Hw).
  simpl. rewrite Hw. clear Hw.
  unfold main_try in Htry. rewrite Hin in Htry. simpl in Htry.
  unfold pbind at 1 in Htry. unfold say at 1 in Htry.
  assert (Hinit : exists r0,
            init E (lower chain_input) (world s)
              = (r0, mkWorld (fs (world s)) (S (clock (world s))) (stdout (world s)))).
  { destruct Hsup as [-> | ->]; [rewrite init_eth | rewrite init_sol]; eauto. }
  destruct Hinit as [r0 Hinit].
  unfold pbind at 1 in Htry. unfold call at 1 in Htry. simpl in Htry.
  rewrite Hinit in Htry.
  destruct r0 as [mgr|e]; [|injection Htry as _ <-; simpl; auto].
  unfold pbind at 1 in Htry. unfold say at 1 in Htry.
  unfold pbind at 1 in Htry. unfold call at 1 in Htry. simpl in Htry.
  destruct Hbad as [[err Herr] | (k & Hk & Hneg)].
  - rewrite Herr in Htry. simpl in Htry. injection Htry as _ <-. simpl. auto.
  - rewrite Hk in Htry. simpl in Htry.
    unfold pbind at 1 in Htry. unfold call at 1 in Htry. simpl in Htry.
    unfold manage_wallets in Htry.
    destruct (Z.ltb_spec k 0) as [_|?]; [|lia].
    simpl in Htry. injection Htry as _ <-. simpl. auto.
Qed.

Lemma main_rejects_count_witness :
  let s' := snd (main Examples.env_ok Examples.int_of_sample "sol" "-1"
                   (mkConsole Examples.two_sol_world [])) in
  fs (world s') = fs (world (mkConsole Examples.two_sol_world [])) /\
  clock (world s') = S (clock (world (mkConsole Examples.two_sol_world []))) /\
  stdout (world s') = stdout (world (mkConsole Examples.two_sol_world [])).
Proof.
  apply (main_rejects_count Examples.env_ok Examples.int_of_sample "sol" "-1"
           (mkConsole Examples.two_sol_world [])).
  - right. reflexivity.
  - right. exists (-1). split; [reflexivity | lia].
Defined.

Lemma report_wallets_screen E mgr ch wallets : forall idx s r s',
  report_wallets E mgr ch idx wallets s = (r, s') ->
  exists lines, screen s' = screen s ++ lines.
Proof.
  induction wallets as [|x rest IH]; intros idx s r s'; simpl.
  - intros [= _ <-]. exists []. rewrite app_nil_r. reflexivity.
  - intros H. apply pbind_inv in H.
    assert (Hone : forall r1 s1, report_wallet E mgr ch idx x s = (r1, s1) ->
              exists lines, screen s1 = screen s ++ lines).
    { intros r1 s1 H1. unfold report_wallet, pbind, call, say in H1.
      destruct (get_balance E mgr (address x) ch (world s)) as [[b|e] w1];
        simpl in H1; injection H1 as _ <-; simpl.
      - rewrite <- !app_assoc. eauto.
      - eauto. }
    destruct H as [(e & H & _) | ([] & s1 & H & Hrest)].
    + eapply Hone. exact H.
    + apply IH in Hrest. destruct Hrest as [l2 ->].
      apply Hone in H. destruct H as [l1 ->].
      exists (l1 ++ l2). rewrite app_assoc. reflexivity.
Qed.

(** A run that goes well.  When the constructor returns a manager, the
    second line is a count [k >= 0], the collaborators of generation
    answer and the wallet file loads, then after [main] - even if a
    balance query fails during the report - the file loads and holds
    [max k size_before] records, and the summary line with the count
    [k] is on the screen. *)
Theorem main_tops_up E int_of_str chain_input count_input s mgr k :
  fst (init E (lower chain_input) (world s)) = Ret mgr ->
  int_of_str count_input = LibOk k -> 0 <= k ->
  reliable E -> loads mgr (world s) ->
  let s' := snd (main E int_of_str chain_input count_input s) in
  fst (_load_wallets mgr (world s')) = Ret (stored mgr (world s')) /\
  Z.of_nat (length (stored mgr (world s')))
    = Z.max k (Z.of_nat (length (stored mgr (world s)))) /\
  In (say_summary (Z.to_nat k) (upper (lower chain_input))) (screen s').
Proof.
  intros Hinit Hparse Hk HE Hloads.
  destruct (init E (lower chain_input) (world s)) as [r0 w1] eqn:Hrun0.
  simpl in Hinit. subst r0.
  assert (Hc : constructed mgr) by (exists E, (lower chain_input), (world s), w1; exact Hrun0).
  assert (Hnet : network mgr = lower chain_input /\
                 in_list (lower chain_input) ["eth"; "sol"] = true).
  { destruct (in_list (lower chain_input) ["eth"; "sol"]) eqn:Hin.
    - split; [|reflexivity]. unfold in_list in Hin. simpl in Hin.
      destruct (String.eqb_spec (lower chain_input) "eth") as [Heq|_].
      + rewrite Heq in *. rewrite init_eth in Hrun0.
        destruct (w3_is_connected E (clock (world s))) as [[|]|err]; try discriminate.
        injection Hrun0 as <- _. reflexivity.
      + destruct (String.eqb_spec (lower chain_input) "sol") as [Heq|_]; [|discriminate].
        rewrite Heq in *. rewrite init_sol in Hrun0.
        destruct (sol_is_connected E (clock (world s))) as [[|]|err]; try discriminate.
        injection Hrun0 as <- _. reflexivity.
    - exfalso. apply in_list_supported in Hin. destruct Hin as [Heth Hsol].
      rewrite (init_unsupported E _ (world s) Heth Hsol) in Hrun0. discriminate. }
  destruct Hnet as [Hnet Hin].
  destruct (init_frame _ _ _ _ _ Hrun0) as [Hfs1 _].
  assert (Hloads1 : loads mgr w1).
  { destruct Hloads as [old Hold]. exists old.
    rewrite (load_same_fs mgr (world s) w1 Hfs1). exact Hold. }
  destruct (manage_wallets_returns E mgr k w1 Hk Hc HE Hloads1) as (wallets & w2 & Hrun).
  rewrite Hnet in Hrun.
  pose proof (manage_wallets_ret_inv _ _ _ _ _ _ _ Hrun)
    as (_ & _ & _ & Hl2 & _ & Hlen & Hr).
  assert (Hcount : length wallets = Z.to_nat k).
  { rewrite Hr, length_firstn. lia. }
  destruct (main_world E int_of_str chain_input count_input s) as (r & s1 & Htry & Hw).
  assert (Hmain : exists lines, screen (snd (main E int_of_str chain_input count_input s))
                                = screen s1 ++ lines).
  { unfold main. rewrite Htry. destruct r as [a|e].
    - exists []. rewrite app_nil_r. reflexivity.
    - destruct (issubclass (main_exn_cls e) ValueError); [unfold say; simpl; eauto|].
      destruct (issubclass (main_exn_cls e) ConnectionError); [unfold say; simpl; eauto|].
      destruct (issubclass (main_exn_cls e) Exception); [unfold say; simpl; eauto|].
      exists []. rewrite app_nil_r. reflexivity. }
  destruct Hmain as [tail Htail].
  simpl. rewrite Hw, Htail. clear Hw Htail.
  unfold main_try in Htry. rewrite Hin in Htry. simpl in Htry.
  unfold pbind at 1 in Htry. unfold say at 1 in Htry.
  unfold pbind at 1 in Htry. unfold call at 1 in Htry. simpl in Htry.
  rewrite Hrun0 in Htry.
  unfold pbind at 1 in Htry. unfold say at 1 in Htry.
  unfold pbind at 1 in Htry. unfold call at 1 in Htry. simpl in Htry.
  rewrite Hparse in Htry. simpl in Htry.
  unfold pbind at 1 in Htry. unfold call at 1 in Htry. simpl in Htry.
  rewrite Hrun in Htry.
  unfold pbind at 1 in Htry. unfold say at 1 in Htry.
  pose proof (report_wallets_fs _ _ _ _ _ _ _ _ Htry) as Hfs.
  pose proof (report_wallets_screen _ _ _ _ _ _ _ _ Htry) as [lines Hscreen].
  simpl in Hfs, Hscreen.
  rewrite (load_same_fs mgr w2 (world s1) Hfs), (stored_same_fs mgr w2 (world s1) Hfs).
  rewrite (stored_same_fs mgr (world s) w1 Hfs1) in *.
  split; [exact Hl2|]. split; [exact Hlen|].
  rewrite Hscreen, Hcount. rewrite !in_app_iff. left. left. right. simpl. auto.
Qed.

Lemma main_tops_up_witness :
  let s' := snd (main Examples.env_ok Examples.int_of_sample "SOL" "3"
                   (mkConsole Examples.two_sol_world [])) in
  fst (_load_wallets Examples.sol_manager (world s'))
    = Ret (stored Examples.sol_manager (world s')) /\
  Z.of_nat (length (stored Examples.sol_manager (world s')))
    = Z.max 3 (Z.of_nat (length (stored Examples.sol_manager
                                   (world (mkConsole Examples.two_sol_world []))))) /\
  In (say_summary (Z.to_nat 3) (upper (lower "SOL"))) (screen s').
Proof.
  apply (main_tops_up Examples.env_ok Examples.int_of_sample "SOL" "3"
           (mkConsole Examples.two_sol_world []) Examples.sol_manager 3).
  - reflexivity.
  - reflexivity.
  - lia.
  - exact env_ok_reliable.
  - exists [Examples.sol_a; Examples.sol_b]. reflexivity.
Defined.
